(** * Ticket lifecycle, notification and geospatial engine

    A shallow embedding of the backend request handlers of the civic
    issue-reporting platform (the Hono server in
    [src/components/RaiseTicketFlow.tsx], from [import { Hono }] on):
    ticket creation, status update, upvote, nearby search, ward heatmap
    and the notification helper.

    Conventions of the embedding.
    - JavaScript numbers that count (upvotes, issue counts) and
      millisecond timestamps are [Z]; coordinates and distances are
      real numbers ([R]), the idealisation of IEEE doubles.
    - An ISO-8601 timestamp string ([new Date().toISOString()]) is
      represented by the instant it denotes, in milliseconds.
    - The handlers run in a state monad over [World]: the key-value
      store together with the clock and the random source, which are
      read through counters so that two reads may differ.
    - The store never fails, so the [catch] branches of the handlers
      (answer 500) are not part of the embedding. *)

From Stdlib Require Import Reals Lra ZArith Ascii Sorted Permutation.
From stdpp Require Import gmap strings list fin_maps pretty.


(** ** JavaScript conventions used by the handlers *)

Module JS.

(** Truthiness of a string: every string but the empty one. *)
Definition truthy_string (s : string) : bool :=
  match s with
  | EmptyString => false
  | String _ _ => true
  end.

(** Truthiness of a possibly absent string ([undefined] is falsy). *)
Definition truthy (o : option string) : bool :=
  match o with
  | Some s => truthy_string s
  | None => false
  end.

(** [x || d] on strings. *)
Definition or_string (o : option string) (d : string) : string :=
  match o with
  | Some s => if truthy_string s then s else d
  | None => d
  end.

(** [x || null] on strings: a falsy value becomes [null]. *)
Definition or_null (o : option string) : option string :=
  if truthy o then o else None.

(** A possibly absent string inside a template literal. *)
Definition template (o : option string) : string :=
  match o with
  | Some s => s
  | None => "undefined"
  end.

(** [n || 0] on an integer-valued number. *)
Definition or_zero (n : Z) : Z := if (n =? 0)%Z then 0%Z else n.

(** Truthiness of a possibly absent number: present and not zero
    (there is no NaN among the reals). *)
Definition truthy_number (o : option R) : bool :=
  match o with
  | Some x => if Req_dec_T x 0 then false else true
  | None => false
  end.

(** [s.replace(c, d)] for one-character strings [c] and [d]: only the
    first occurrence is replaced. *)
Fixpoint replace (c d : Ascii.ascii) (s : string) : string :=
  match s with
  | EmptyString => EmptyString
  | String a rest =>
      if Ascii.eqb a c then String d rest else String a (replace c d rest)
  end.

(** [Math.round(t / c)] for integers [t] and [c], [c] positive: the
    integer nearest to the quotient, a tie going up. *)
Definition round_div (t c : Z) : Z := ((2 * t + c) / (2 * c))%Z.

(** [Math.atan2 y x] on the reals. *)
Definition atan2 (y x : R) : R :=
  (if Rlt_dec 0 x then atan (y / x)
   else if Rlt_dec x 0 then
          if Rle_dec 0 y then atan (y / x) + PI else atan (y / x) - PI
        else if Rlt_dec 0 y then PI / 2
             else if Rlt_dec y 0 then - PI / 2 else 0)%R.

End JS.

(** ** Data model: the JSON values kept in the store *)

Record Location := {
  loc_lat : option R;
  loc_lng : option R;
  loc_address : option string;
  loc_ward : option string;
  loc_digiPin : option string
}.

Record Resolution := {
  res_notes : string;
  res_proofImageUrl : option string;
  res_resolvedBy : string;
  res_resolvedAt : Z
}.

Record Ticket := {
  t_id : string;
  t_userId : string;
  t_category : string;
  t_description : string;
  t_location : option Location;
  t_imageUrl : option string;
  t_status : string;
  t_createdAt : Z;
  t_updatedAt : Z;
  t_assignedTo : option string;
  t_resolution : option Resolution;
  t_upvotes : Z
}.

Record Profile := {
  p_id : option string;
  p_name : string;
  p_role : option string
}.

Record Notification := {
  n_id : string;
  n_type : string;
  n_title : string;
  n_message : string;
  n_ticketId : option string;
  n_read : bool;
  n_createdAt : Z
}.

Record Upvote := {
  u_userId : string;
  u_ticketId : string;
  u_createdAt : Z
}.

(** The shapes of value the handlers write, one per key family. *)
Inductive value :=
| VTicket (t : Ticket)
| VProfile (p : Profile)
| VTicketIds (ids : list string)
| VNotifications (ns : list Notification)
| VUpvote (u : Upvote).

Definition as_ticket (v : value) : option Ticket :=
  match v with VTicket t => Some t | _ => None end.
Definition as_profile (v : value) : option Profile :=
  match v with VProfile p => Some p | _ => None end.
Definition as_ticket_ids (v : value) : option (list string) :=
  match v with VTicketIds l => Some l | _ => None end.
Definition as_notifications (v : value) : option (list Notification) :=
  match v with VNotifications l => Some l | _ => None end.

(** ** The world: store, clock and random source *)

(** The clock and the random source, each read through a counter. *)
Record Oracle := {
  clock : nat -> Z;
  ticks : nat;
  random : nat -> string;
  draws : nat
}.

Definition tick (o : Oracle) : Oracle :=
  {| clock := clock o; ticks := S (ticks o);
     random := random o; draws := draws o |}.

Definition draw (o : Oracle) : Oracle :=
  {| clock := clock o; ticks := ticks o;
     random := random o; draws := S (draws o) |}.

Record World := {
  kv : gmap string value;
  oracle : Oracle
}.

Definition M (A : Type) : Type := World -> A * World.

Definition ret {A} (a : A) : M A := fun w => (a, w).
Definition bind {A B} (c : M A) (k : A -> M B) : M B :=
  fun w => let (a, w') := c w in k a w'.

Notation "'let*' x ':=' c 'in' k" := (bind c (fun x => k))
  (at level 10, x pattern, c at level 100, k at level 200).
Notation "c ';;' k" := (bind c (fun _ => k))
  (at level 100, k at level 200, right associativity).

Definition run {A} (c : M A) (w : World) : A * World := c w.

(** Modelled from the spec: the key-value store module [kv_store.tsx]
    (get, set and prefix scan over a durable mapping from string keys
    to JSON values); only its callers are in the sources. The order of
    a prefix scan is the store's own. *)
Module Kv.

Definition get (key : string) : M (option value) :=
  fun w => (kv w !! key, w).

Definition set (key : string) (v : value) : M unit :=
  fun w => (tt, {| kv := <[key := v]> (kv w); oracle := oracle w |}).

Definition scan (p : string) (m : gmap string value) : list value :=
  (map_to_list (filter (fun e => String.prefix p e.1 = true) m)).*2.

Definition getByPrefix (p : string) : M (list value) :=
  fun w => (scan p (kv w), w).

End Kv.

(** [Date.now()] and [new Date()]: the next reading of the clock. *)
Definition Date_now : M Z :=
  fun w => (clock (oracle w) (ticks (oracle w)),
            {| kv := kv w; oracle := tick (oracle w) |}).

(** [Math.random().toString(36).substr(2, 9)]: the next random suffix. *)
Definition random_suffix : M string :=
  fun w => (random (oracle w) (draws (oracle w)),
            {| kv := kv w; oracle := draw (oracle w) |}).

(** ** Responses *)

Record WardAggregate := {
  wa_ward : string;
  wa_issueCount : Z;
  wa_criticalCount : Z;
  wa_totalUpvotes : Z;
  wa_categories : gmap string Z;
  wa_averageUpvotes : Z;
  wa_density : string
}.

Inductive Body :=
| BError (error : string)
| BTicket (ticket : Ticket) (message : string)
| BNearby (tickets : list (Ticket * R))
| BHeatmap (heatmapData : list WardAggregate).

Record Response := { status : Z; body : Body }.

(** [c.json(obj, code)]; the code is 200 when omitted. *)
Definition json (b : Body) (code : Z) : Response :=
  {| status := code; body := b |}.

(** The outcome of [supabase.auth.getUser]: the caller's id, when the
    token is valid. The guard [!user?.id || authError] also rejects an
    empty id. *)
Definition authenticated (user : option string) : option string :=
  if JS.truthy user then user else None.

(** ** Notification helper *)

Definition notifications_key (userId : string) : string :=
  "notifications_" +:+ userId.

Definition feed (m : gmap string value) (userId : string)
  : list Notification :=
  default [] (m !! notifications_key userId ≫= as_notifications).

(** [createNotification]: read the feed, [unshift] the new entry,
    [splice(50)] when longer than 50, write it back. *)
Definition createNotification (userId type title message : string)
    (ticketId : option string) : M unit :=
  let* stored := Kv.get (notifications_key userId) in
  let notifications := default [] (stored ≫= as_notifications) in
  let* now := Date_now in
  let* suffix := random_suffix in
  let* created := Date_now in
  let notification :=
    {| n_id := "notif_" +:+ pretty now +:+ "_" +:+ suffix;
       n_type := type;
       n_title := title;
       n_message := message;
       n_ticketId := ticketId;
       n_read := false;
       n_createdAt := created |} in
  let notifications := notification :: notifications in
  let notifications :=
    if (50 <? length notifications)%nat then take 50 notifications
    else notifications in
  Kv.set (notifications_key userId) (VNotifications notifications).

(** A [for ... of] loop whose body only has effects. *)
Fixpoint for_each {A} (l : list A) (f : A -> M unit) : M unit :=
  match l with
  | [] => ret tt
  | x :: rest => f x ;; for_each rest f
  end.

(** ** Ticket service *)

Definition ticket_key (ticketId : string) : string := "ticket_" +:+ ticketId.
Definition user_tickets_key (userId : string) : string :=
  "user_tickets_" +:+ userId.
Definition user_profile_key (userId : string) : string :=
  "user_profile_" +:+ userId.
Definition upvote_key (ticketId userId : string) : string :=
  "upvote_" +:+ ticketId +:+ "_" +:+ userId.

(** [kv.get] of a ticket key, read as a ticket. Every write under the
    [ticket_] prefix stores a ticket, and the prefixes of the key
    families differ, so no other shape is met there. *)
Definition get_ticket (ticketId : string) : M (option Ticket) :=
  let* stored := Kv.get (ticket_key ticketId) in
  ret (stored ≫= as_ticket).

(** The JSON body of a submission. *)
Record Submission := {
  s_category : option string;
  s_description : option string;
  s_location : option Location;
  s_imageUrl : option string
}.

(** The guard [!category || !location] passed: both fields truthy. *)
Definition required_fields (req : Submission) : option (string * Location) :=
  match s_category req, s_location req with
  | Some category, Some location =>
      if JS.truthy_string category then Some (category, location) else None
  | _, _ => None
  end.

(** [POST /tickets] *)
Definition submitTicket (user : option string) (req : Submission)
  : M Response :=
  match authenticated user with
  | None => ret (json (BError "Unauthorized") 401)
  | Some userId =>
    match required_fields req with
    | Some (category, location) =>
      let* stamp := Date_now in
      let ticketId := "TKT" +:+ pretty stamp in
      let* created := Date_now in
      let* updated := Date_now in
      let ticket :=
        {| t_id := ticketId;
           t_userId := userId;
           t_category := category;
           t_description := JS.or_string (s_description req) "";
           t_location := Some location;
           t_imageUrl := JS.or_null (s_imageUrl req);
           t_status := "submitted";
           t_createdAt := created;
           t_updatedAt := updated;
           t_assignedTo := None;
           t_resolution := None;
           t_upvotes := 0 |} in
      Kv.set (ticket_key ticketId) (VTicket ticket) ;;
      let* stored := Kv.get (user_tickets_key userId) in
      let userTickets := default [] (stored ≫= as_ticket_ids) in
      let userTickets := userTickets ++ [ticketId] in
      Kv.set (user_tickets_key userId) (VTicketIds userTickets) ;;
      let* allProfiles := Kv.getByPrefix "user_profile_" in
      let authorities :=
        filter (fun profile => p_role profile = Some "authority")
               (omap as_profile allProfiles) in
      for_each authorities (fun authority =>
        createNotification
          (JS.template (p_id authority))
          "new_ticket"
          "New Issue Reported"
          ("A new " +:+ JS.replace "-"%char " "%char category +:+
           " issue has been reported in " +:+
           JS.or_string (loc_ward location) "your area")
          (Some ticketId)) ;;
      ret (json (BTicket ticket "Ticket submitted successfully") 200)
    | None => ret (json (BError "Category and location are required") 400)
    end
  end.

(** The JSON body of a status update; the status is a string, as the
    handler assumes when it calls [status.replace]. *)
Record StatusUpdate := {
  su_status : string;
  su_resolution : option string;
  su_proofImageUrl : option string
}.

(** [PUT /tickets/:ticketId/status] *)
Definition updateStatus (user : option string) (ticketId : string)
    (req : StatusUpdate) : M Response :=
  match authenticated user with
  | None => ret (json (BError "Unauthorized") 401)
  | Some userId =>
    let* userProfile := Kv.get (user_profile_key userId) in
    if bool_decide ((userProfile ≫= as_profile) ≫= p_role = Some "authority")
    then
      let* found := get_ticket ticketId in
      match found with
      | None => ret (json (BError "Ticket not found") 404)
      | Some ticket =>
        let status := su_status req in
        let* updated := Date_now in
        let* resolution :=
          if JS.truthy (su_resolution req) then
            let* resolved := Date_now in
            ret (Some {| res_notes := JS.template (su_resolution req);
                         res_proofImageUrl :=
                           JS.or_null (su_proofImageUrl req);
                         res_resolvedBy := userId;
                         res_resolvedAt := resolved |})
          else ret (t_resolution ticket) in
        let ticket :=
          {| t_id := t_id ticket;
             t_userId := t_userId ticket;
             t_category := t_category ticket;
             t_description := t_description ticket;
             t_location := t_location ticket;
             t_imageUrl := t_imageUrl ticket;
             t_status := status;
             t_createdAt := t_createdAt ticket;
             t_updatedAt := updated;
             t_assignedTo := Some userId;
             t_resolution := resolution;
             t_upvotes := t_upvotes ticket |} in
        Kv.set (ticket_key ticketId) (VTicket ticket) ;;
        let* ticketOwnerProfile :=
          Kv.get (user_profile_key (t_userId ticket)) in
        match ticketOwnerProfile with
        | Some _ =>
          let statusMessage :=
            if String.eqb status "completed" then "resolved"
            else JS.replace "-"%char " "%char status in
          createNotification
            (t_userId ticket)
            "ticket_update"
            "Ticket Status Updated"
            ("Your ticket #" +:+ ticketId +:+ " has been " +:+ statusMessage)
            (Some ticketId) ;;
          if String.eqb status "completed"
             && JS.truthy (su_proofImageUrl req)
          then
            createNotification
              (t_userId ticket)
              "resolution"
              "Issue Resolved"
              ("Your ticket #" +:+ ticketId +:+
               " has been completed with proof of resolution")
              (Some ticketId)
          else ret tt
        | None => ret tt
        end ;;
        ret (json (BTicket ticket "Ticket updated successfully") 200)
      end
    else ret (json (BError "Insufficient permissions") 403)
  end.

Definition with_upvotes (ticket : Ticket) (n : Z) : Ticket :=
  {| t_id := t_id ticket;
     t_userId := t_userId ticket;
     t_category := t_category ticket;
     t_description := t_description ticket;
     t_location := t_location ticket;
     t_imageUrl := t_imageUrl ticket;
     t_status := t_status ticket;
     t_createdAt := t_createdAt ticket;
     t_updatedAt := t_updatedAt ticket;
     t_assignedTo := t_assignedTo ticket;
     t_resolution := t_resolution ticket;
     t_upvotes := n |}.

(** [POST /tickets/:ticketId/upvote] *)
Definition upvote (user : option string) (ticketId : string) : M Response :=
  match authenticated user with
  | None => ret (json (BError "Unauthorized") 401)
  | Some userId =>
    let* found := get_ticket ticketId in
    match found with
    | None => ret (json (BError "Ticket not found") 404)
    | Some ticket =>
      let upvoteKey := upvote_key ticketId userId in
      let* existingUpvote := Kv.get upvoteKey in
      match existingUpvote with
      | Some _ => ret (json (BError "Already upvoted") 400)
      | None =>
        let* created := Date_now in
        Kv.set upvoteKey
          (VUpvote {| u_userId := userId; u_ticketId := ticketId;
                      u_createdAt := created |}) ;;
        let ticket :=
          with_upvotes ticket (JS.or_zero (t_upvotes ticket) + 1) in
        Kv.set (ticket_key ticketId) (VTicket ticket) ;;
        (if negb (String.eqb (t_userId ticket) userId) then
           createNotification
             (t_userId ticket)
             "ticket_upvote"
             "Your Issue Got Support"
             ("Someone upvoted your ticket #" +:+ ticketId +:+
              ". Total votes: " +:+ pretty (t_upvotes ticket))
             (Some ticketId)
         else ret tt) ;;
        ret (json (BTicket ticket "Upvoted successfully") 200)
      end
    end
  end.

(** ** Geo utility *)

(** [calculateDistance]: the haversine formula, in kilometres. The
    numbers are taken as real numbers. The machine computes in double
    precision, where each operation rounds: its distance is close to
    this one, but for two points near antipodes the rounded term [a]
    can exceed 1, the root of [1 - a] is then not a number, and neither
    is the distance. *)
Definition calculateDistance (lat1 lng1 lat2 lng2 : R) : R :=
  (let R := 6371 in
   let dLat := (lat2 - lat1) * PI / 180 in
   let dLng := (lng2 - lng1) * PI / 180 in
   let a := sin (dLat / 2) * sin (dLat / 2) +
            cos (lat1 * PI / 180) * cos (lat2 * PI / 180) *
            sin (dLng / 2) * sin (dLng / 2) in
   let c := 2 * JS.atan2 (sqrt a) (sqrt (1 - a)) in
   R * c)%R.

(** ** Nearby search *)

(** The guard [ticket.location?.lat && ticket.location?.lng]: the two
    coordinates, when the location is there and both are truthy. *)
Definition coordinates (ticket : Ticket) : option (R * R) :=
  match t_location ticket with
  | Some location =>
      if JS.truthy_number (loc_lat location)
         && JS.truthy_number (loc_lng location)
      then
        match loc_lat location, loc_lng location with
        | Some tlat, Some tlng => Some (tlat, tlng)
        | _, _ => None
        end
      else None
  | None => None
  end.

(** The body of the scan loop for one ticket: [{ ...ticket, distance }]
    when it is pushed. *)
Definition within (lat lng radius : R) (ticket : Ticket)
  : option (Ticket * R) :=
  match coordinates ticket with
  | Some (tlat, tlng) =>
      let distance := calculateDistance lat lng tlat tlng in
      if Rle_dec distance radius then Some (ticket, distance) else None
  | None => None
  end.

(** [Array.prototype.sort] with the comparator [a.distance - b.distance]:
    the sort is stable, so its result is the one of a stable insertion
    sort: an entry goes before the first entry that is not closer. *)
Fixpoint insert_by_distance (x : Ticket * R) (l : list (Ticket * R))
  : list (Ticket * R) :=
  match l with
  | [] => [x]
  | y :: rest =>
      if Rle_dec x.2 y.2 then x :: y :: rest
      else y :: insert_by_distance x rest
  end.

Definition sort_by_distance (l : list (Ticket * R)) : list (Ticket * R) :=
  foldr insert_by_distance [] l.

(** The query string of the nearby search, each number already parsed
    ([parseFloat]); an absent parameter takes its default. *)
Record NearbyQuery := {
  q_lat : option R;
  q_lng : option R;
  q_radius : option R
}.

Definition nearby (allTickets : list Ticket) (lat lng radius : R)
  : list (Ticket * R) :=
  sort_by_distance (omap (within lat lng radius) allTickets).

(** [GET /tickets/nearby] *)
Definition nearbyTickets (q : NearbyQuery) : M Response :=
  let lat := default 0%R (q_lat q) in
  let lng := default 0%R (q_lng q) in
  let radius := default 5%R (q_radius q) in
  let* allTickets := Kv.getByPrefix "ticket_" in
  ret (json (BNearby (nearby (omap as_ticket allTickets) lat lng radius))
            200).

(** ** Aggregation service *)

(** The calendar arithmetic of the JavaScript [Date] object on instants
    (it depends on the time zone of the server): day of the month and
    month of an instant, and the instant with one of them replaced. *)
Record DateApi := {
  getDate : Z -> Z;
  setDate : Z -> Z -> Z;
  getMonth : Z -> Z;
  setMonth : Z -> Z -> Z
}.

(** The calendar of a server whose time zone is UTC, after the
    ECMAScript operations [MakeDay] and [MakeDate]: an instant is split
    into its day number and the time within the day, the day number
    into a civil date; a day of the month or a month outside its range
    carries over to the neighbouring months and years. *)
Module Utc.

Definition msPerDay : Z := 86400000.

(** Day number (days since 1970-01-01) of a civil date, the month from
    1 to 12; the day of the month may lie outside the month. *)
Definition days_from_civil (y m d : Z) : Z :=
  (let y := if m <=? 2 then y - 1 else y in
   let era := y / 400 in
   let yoe := y - era * 400 in
   let doy := (153 * (if 2 <? m then m - 3 else m + 9) + 2) / 5 + d - 1 in
   let doe := yoe * 365 + yoe / 4 - yoe / 100 + doy in
   era * 146097 + doe - 719468)%Z.

(** Year, month (1 to 12) and day of the month of a day number. *)
Definition civil_from_days (z : Z) : Z * Z * Z :=
  (let z := z + 719468 in
   let era := z / 146097 in
   let doe := z - era * 146097 in
   let yoe := (doe - doe / 1460 + doe / 36524 - doe / 146096) / 365 in
   let y := yoe + era * 400 in
   let doy := doe - (365 * yoe + yoe / 4 - yoe / 100) in
   let mp := (5 * doy + 2) / 153 in
   let d := doy - (153 * mp + 2) / 5 + 1 in
   let m := if mp <? 10 then mp + 3 else mp - 9 in
   (if m <=? 2 then y + 1 else y, m, d))%Z.

Definition day_of_month (t : Z) : Z :=
  (civil_from_days (t / msPerDay)).2.

(** Months count from 0 in JavaScript. *)
Definition month_of_year (t : Z) : Z :=
  ((civil_from_days (t / msPerDay)).1.2 - 1)%Z.

Definition with_day_of_month (t day : Z) : Z :=
  let '(y, m, _) := civil_from_days (t / msPerDay) in
  (days_from_civil y m day * msPerDay + t mod msPerDay)%Z.

Definition with_month (t month : Z) : Z :=
  let '(y, _, d) := civil_from_days (t / msPerDay) in
  (days_from_civil (y + month / 12) (month mod 12 + 1) d * msPerDay
   + t mod msPerDay)%Z.

Definition date : DateApi :=
  {| getDate := day_of_month; setDate := with_day_of_month;
     getMonth := month_of_year; setMonth := with_month |}.

End Utc.

Record WardData := {
  wd_ward : string;
  wd_issueCount : Z;
  wd_criticalCount : Z;
  wd_totalUpvotes : Z;
  wd_categories : gmap string Z
}.

(** One step of the grouping loop. The objects [wardData] and
    [categories] are taken as maps of their own keys, which is what the
    lookups [wardData[ward]] and [categories[category]] see as long as
    the key is not the name of a member that every object inherits
    (constructor, toString, ...). *)
Definition add_ticket (wardData : gmap string WardData) (ticket : Ticket)
  : gmap string WardData :=
  let ward := JS.or_string (t_location ticket ≫= loc_ward) "Unknown" in
  let entry :=
    default {| wd_ward := ward; wd_issueCount := 0; wd_criticalCount := 0;
               wd_totalUpvotes := 0; wd_categories := ∅ |}
            (wardData !! ward) in
  let category := t_category ticket in
  <[ward :=
      {| wd_ward := wd_ward entry;
         wd_issueCount := wd_issueCount entry + 1;
         wd_criticalCount :=
           if (15 <=? JS.or_zero (t_upvotes ticket))%Z
           then wd_criticalCount entry + 1 else wd_criticalCount entry;
         wd_totalUpvotes :=
           wd_totalUpvotes entry + JS.or_zero (t_upvotes ticket);
         wd_categories :=
           <[category :=
               (JS.or_zero (default 0 (wd_categories entry !! category))
                + 1)%Z]>
             (wd_categories entry) |}]> wardData.

(** The computed fields added to a ward entry. *)
Definition aggregate (ward : WardData) : WardAggregate :=
  {| wa_ward := wd_ward ward;
     wa_issueCount := wd_issueCount ward;
     wa_criticalCount := wd_criticalCount ward;
     wa_totalUpvotes := wd_totalUpvotes ward;
     wa_categories := wd_categories ward;
     wa_averageUpvotes :=
       if (0 <? wd_issueCount ward)%Z
       then JS.round_div (wd_totalUpvotes ward) (wd_issueCount ward)
       else 0;
     wa_density :=
       if (40 <? wd_issueCount ward)%Z then "critical"
       else if (25 <? wd_issueCount ward)%Z then "high"
       else if (15 <? wd_issueCount ward)%Z then "medium"
       else "low" |}.

Section Aggregation.

Context (date : DateApi).

(** The [switch] on the time filter. *)
Definition threshold_of (timeFilter : string) (now dateThreshold : Z) : Z :=
  if String.eqb timeFilter "day"
  then setDate date dateThreshold (getDate date now - 1)
  else if String.eqb timeFilter "week"
  then setDate date dateThreshold (getDate date now - 7)
  else if String.eqb timeFilter "month"
  then setMonth date dateThreshold (getMonth date now - 1)
  else if String.eqb timeFilter "quarter"
  then setMonth date dateThreshold (getMonth date now - 3)
  else dateThreshold.

Definition heatmapData (allTickets : list Ticket)
    (timeFilter wardFilter : string) (dateThreshold : Z)
  : list WardAggregate :=
  let allTickets :=
    if String.eqb timeFilter "all" then allTickets
    else filter (fun ticket => (dateThreshold <= t_createdAt ticket)%Z)
                allTickets in
  let allTickets :=
    if String.eqb wardFilter "all" then allTickets
    else filter (fun ticket =>
                   t_location ticket ≫= loc_ward = Some wardFilter)
                allTickets in
  let wardData := foldl add_ticket ∅ allTickets in
  aggregate <$> (map_to_list wardData).*2.

(** [GET /tickets/heatmap] *)
Definition heatmap (timeFilter wardFilter : option string) : M Response :=
  let timeFilter := JS.or_string timeFilter "week" in
  let wardFilter := JS.or_string wardFilter "all" in
  let* allTickets := Kv.getByPrefix "ticket_" in
  let* now := Date_now in
  let* dateThreshold := Date_now in
  let dateThreshold := threshold_of timeFilter now dateThreshold in
  ret (json (BHeatmap (heatmapData (omap as_ticket allTickets)
                                   timeFilter wardFilter dateThreshold))
            200).

End Aggregation.


(** ** Listings and feed handlers *)

(** The answers of the listing and feed handlers: [c.json(obj, code)]
    with the shapes these handlers send. *)
Inductive Payload :=
| PError (error : string)
| PTickets (tickets : list Ticket)
| PNotifications (notifications : list Notification)
| PMessage (message : string).

Record Answer := { a_status : Z; a_payload : Payload }.

Definition reply (p : Payload) (code : Z) : Answer :=
  {| a_status := code; a_payload := p |}.

(** [Array.prototype.sort(compare)]: the sort is stable, so for a
    comparator that orders the entries consistently its result is the
    one of a stable insertion sort: an entry goes before the first
    entry [y] with [compare x y <= 0]. *)
Fixpoint insert_with {A} (compare : A -> A -> Z) (x : A) (l : list A)
  : list A :=
  match l with
  | [] => [x]
  | y :: rest =>
      if (compare x y <=? 0)%Z then x :: y :: rest
      else y :: insert_with compare x rest
  end.

Definition sort_with {A} (compare : A -> A -> Z) (l : list A) : list A :=
  foldr (insert_with compare) [] l.

(** The loop of [GET /tickets/my]: the tickets of the listed ids, in
    the order of the list; an id without a stored ticket is skipped. *)
Fixpoint fetch_tickets (userTickets : list string) : M (list Ticket) :=
  match userTickets with
  | [] => ret []
  | ticketId :: rest =>
      let* ticket := get_ticket ticketId in
      let* tickets := fetch_tickets rest in
      ret (match ticket with
           | Some ticket => ticket :: tickets
           | None => tickets
           end)
  end.

(** The comparator [new Date(b.createdAt) - new Date(a.createdAt)]. *)
Definition newest_first (a b : Ticket) : Z :=
  (t_createdAt b - t_createdAt a)%Z.

(** [GET /tickets/my] *)
Definition myTickets (user : option string) : M Answer :=
  match authenticated user with
  | None => ret (reply (PError "Unauthorized") 401)
  | Some userId =>
    let* stored := Kv.get (user_tickets_key userId) in
    let userTickets := default [] (stored ≫= as_ticket_ids) in
    let* tickets := fetch_tickets userTickets in
    ret (reply (PTickets (sort_with newest_first tickets)) 200)
  end.

(** The query string of [GET /tickets/all]; a date parameter is given
    as the instant it denotes. *)
Record AllQuery := {
  aq_ward : option string;
  aq_status : option string;
  aq_dateFrom : option Z;
  aq_dateTo : option Z;
  aq_sortBy : option string
}.

(** The guard [x && x !== 'all'] of the ward and status filters: the
    value to filter on, when there is one. *)
Definition selective (o : option string) : option string :=
  match o with
  | Some s =>
      if JS.truthy_string s && negb (String.eqb s "all") then Some s
      else None
  | None => None
  end.

(** The filters of [GET /tickets/all], applied one after the other. *)
Definition filter_all (q : AllQuery) (allTickets : list Ticket)
  : list Ticket :=
  let allTickets :=
    match selective (aq_ward q) with
    | Some ward =>
        filter (fun ticket => t_location ticket ≫= loc_ward = Some ward)
               allTickets
    | None => allTickets
    end in
  let allTickets :=
    match selective (aq_status q) with
    | Some status =>
        filter (fun ticket => t_status ticket = status) allTickets
    | None => allTickets
    end in
  let allTickets :=
    match aq_dateFrom q with
    | Some fromDate =>
        filter (fun ticket => (fromDate <= t_createdAt ticket)%Z) allTickets
    | None => allTickets
    end in
  match aq_dateTo q with
  | Some toDate =>
      filter (fun ticket => (t_createdAt ticket <= toDate)%Z) allTickets
  | None => allTickets
  end.

Section Listing.

(** [String.prototype.localeCompare], whose order is the one of the
    locale of the server. *)
Context (localeCompare : string -> string -> Z).

(** The comparator of [GET /tickets/all]: the [switch] on [sortBy]. *)
Definition compare_tickets (sortBy : string) (a b : Ticket) : Z :=
  if String.eqb sortBy "upvotes"
  then (JS.or_zero (t_upvotes b) - JS.or_zero (t_upvotes a))%Z
  else if String.eqb sortBy "criticality"
  then (JS.or_zero (t_upvotes b) - JS.or_zero (t_upvotes a))%Z
  else if String.eqb sortBy "status"
  then localeCompare (t_status a) (t_status b)
  else if String.eqb sortBy "ward"
  then localeCompare (JS.or_string (t_location a ≫= loc_ward) "")
                     (JS.or_string (t_location b ≫= loc_ward) "")
  else (t_createdAt b - t_createdAt a)%Z.

(** [GET /tickets/all] *)
Definition allTickets (user : option string) (q : AllQuery) : M Answer :=
  match authenticated user with
  | None => ret (reply (PError "Unauthorized") 401)
  | Some userId =>
    let sortBy := JS.or_string (aq_sortBy q) "date" in
    let* allTickets := Kv.getByPrefix "ticket_" in
    let allTickets := filter_all q (omap as_ticket allTickets) in
    ret (reply (PTickets (sort_with (compare_tickets sortBy) allTickets))
               200)
  end.

End Listing.

(** The comparator of the feed listing. *)
Definition latest_first (a b : Notification) : Z :=
  (n_createdAt b - n_createdAt a)%Z.

(** [GET /notifications]: the sorted feed is answered, not stored. *)
Definition listNotifications (user : option string) : M Answer :=
  match authenticated user with
  | None => ret (reply (PError "Unauthorized") 401)
  | Some userId =>
    let* stored := Kv.get (notifications_key userId) in
    let notifications := default [] (stored ≫= as_notifications) in
    ret (reply (PNotifications (sort_with latest_first notifications)) 200)
  end.

(** [{ ...n, read: true }] *)
Definition with_read (n : Notification) : Notification :=
  {| n_id := n_id n;
     n_type := n_type n;
     n_title := n_title n;
     n_message := n_message n;
     n_ticketId := n_ticketId n;
     n_read := true;
     n_createdAt := n_createdAt n |}.

(** [PUT /notifications/:notificationId/read] *)
Definition markRead (user : option string) (notificationId : string)
  : M Answer :=
  match authenticated user with
  | None => ret (reply (PError "Unauthorized") 401)
  | Some userId =>
    let* stored := Kv.get (notifications_key userId) in
    let notifications := default [] (stored ≫= as_notifications) in
    let updatedNotifications :=
      (fun n => if String.eqb (n_id n) notificationId then with_read n else n)
        <$> notifications in
    Kv.set (notifications_key userId) (VNotifications updatedNotifications) ;;
    ret (reply (PMessage "Notification marked as read") 200)
  end.

(** [PUT /notifications/mark-all-read] *)
Definition markAllRead (user : option string) : M Answer :=
  match authenticated user with
  | None => ret (reply (PError "Unauthorized") 401)
  | Some userId =>
    let* stored := Kv.get (notifications_key userId) in
    let notifications := default [] (stored ≫= as_notifications) in
    let updatedNotifications := with_read <$> notifications in
    Kv.set (notifications_key userId) (VNotifications updatedNotifications) ;;
    ret (reply (PMessage "All notifications marked as read") 200)
  end.

(** ** Upload naming *)

(** [s.split(sep)] for a one-character separator: the segments between
    the separators, of which there is always at least one. *)
Fixpoint split (sep : Ascii.ascii) (s : string) : list string :=
  match s with
  | EmptyString => [EmptyString]
  | String c rest =>
      if Ascii.eqb c sep then EmptyString :: split sep rest
      else match split sep rest with
           | segment :: segments => String c segment :: segments
           | [] => [String c EmptyString]
           end
  end.

(** [file.name.split('.').pop() || 'jpg'] *)
Definition extension (name : string) : string :=
  JS.or_string (last (split "."%char name)) "jpg".

(** The name an upload is stored under:
    [`${user.id}_${timestamp}.${extension}`]. *)
Definition upload_filename (userId : string) (timestamp : Z) (name : string)
  : string :=
  userId +:+ "_" +:+ pretty timestamp +:+ "." +:+ extension name.

(** ** Vocabulary of the statements *)

(** The entry [createNotification] builds when the clock and the random
    source stand at [o]. *)
Definition new_notification (o : Oracle) (type title message : string)
    (ticketId : option string) : Notification :=
  {| n_id := "notif_" +:+ pretty (clock o (ticks o)) +:+ "_" +:+
             random o (draws o);
     n_type := type;
     n_title := title;
     n_message := message;
     n_ticketId := ticketId;
     n_read := false;
     n_createdAt := clock o (S (ticks o)) |}.

(** The readings one [createNotification] consumes: two of the clock,
    one of the random source. *)
Definition elapse (o : Oracle) : Oracle := tick (draw (tick o)).

(** The arguments of one [createNotification] call, the recipient
    apart. *)
Record Call := {
  c_type : string;
  c_title : string;
  c_message : string;
  c_ticketId : option string
}.

Definition notify (userId : string) (c : Call) : M unit :=
  createNotification userId (c_type c) (c_title c) (c_message c)
    (c_ticketId c).

(** Successive calls for one recipient. *)
Definition notify_all (userId : string) (calls : list Call) : M unit :=
  for_each calls (notify userId).

(** The entries a run of calls builds, oldest first. *)
Fixpoint created (o : Oracle) (calls : list Call) : list Notification :=
  match calls with
  | [] => []
  | c :: rest =>
      new_notification o (c_type c) (c_title c) (c_message c) (c_ticketId c)
      :: created (elapse o) rest
  end.

(** The profiles a submission is announced to. *)
Definition authorities (m : gmap string value) : list Profile :=
  filter (fun profile => p_role profile = Some "authority")
         (omap as_profile (Kv.scan "user_profile_" m)).

(** The message of a [new_ticket] entry. *)
Definition announcement (category : string) (location : Location) : string :=
  "A new " +:+ JS.replace "-"%char " "%char category +:+
  " issue has been reported in " +:+
  JS.or_string (loc_ward location) "your area".

(** [n] is an unread [new_ticket] entry about [ticketId]. *)
Definition announces (ticketId message : string) (n : Notification) : Prop :=
  n_type n = "new_ticket" /\ n_title n = "New Issue Reported"
  /\ n_message n = message /\ n_ticketId n = Some ticketId
  /\ n_read n = false.

(** The ticket a submission builds when the clock stands at [o]: three
    readings, for the id and the two timestamps. *)
Definition submitted (userId : string) (req : Submission) (category : string)
    (location : Location) (o : Oracle) : Ticket :=
  {| t_id := "TKT" +:+ pretty (clock o (ticks o));
     t_userId := userId;
     t_category := category;
     t_description := JS.or_string (s_description req) "";
     t_location := Some location;
     t_imageUrl := JS.or_null (s_imageUrl req);
     t_status := "submitted";
     t_createdAt := clock o (S (ticks o));
     t_updatedAt := clock o (S (S (ticks o)));
     t_assignedTo := None;
     t_resolution := None;
     t_upvotes := 0 |}.

(** The messages of the entries a status update sends. *)
Definition status_message (ticketId status : string) : string :=
  "Your ticket #" +:+ ticketId +:+ " has been " +:+
  (if String.eqb status "completed" then "resolved"
   else JS.replace "-"%char " "%char status).

Definition resolution_message (ticketId : string) : string :=
  "Your ticket #" +:+ ticketId +:+
  " has been completed with proof of resolution".

(** The clock after the ticket part of a status update: one reading
    for [updatedAt], one more for [resolvedAt] when notes are given. *)
Definition after_update (req : StatusUpdate) (o : Oracle) : Oracle :=
  if JS.truthy (su_resolution req) then tick (tick o) else tick o.

(** The ticket a status update stores. *)
Definition updated (userId : string) (req : StatusUpdate) (ticket : Ticket)
    (o : Oracle) : Ticket :=
  {| t_id := t_id ticket;
     t_userId := t_userId ticket;
     t_category := t_category ticket;
     t_description := t_description ticket;
     t_location := t_location ticket;
     t_imageUrl := t_imageUrl ticket;
     t_status := su_status req;
     t_createdAt := t_createdAt ticket;
     t_updatedAt := clock o (ticks o);
     t_assignedTo := Some userId;
     t_resolution :=
       if JS.truthy (su_resolution req) then
         Some {| res_notes := JS.template (su_resolution req);
                 res_proofImageUrl := JS.or_null (su_proofImageUrl req);
                 res_resolvedBy := userId;
                 res_resolvedAt := clock o (S (ticks o)) |}
       else t_resolution ticket;
     t_upvotes := t_upvotes ticket |}.

(** The tickets a prefix scan of the ticket keys returns. *)
Definition stored_tickets (m : gmap string value) : list Ticket :=
  omap as_ticket (Kv.scan "ticket_" m).



(** ** Sample data *)

Module Sample.

Definition oracle0 : Oracle :=
  {| clock := fun n => (1700000000000 + Z.of_nat n)%Z; ticks := 0;
     random := fun _ => "k3x9q2m7a"; draws := 0 |}.

Definition delhi : Location :=
  {| loc_lat := Some 28.6%R; loc_lng := Some 77.2%R;
     loc_address := Some "New Delhi"; loc_ward := Some "Ward 25";
     loc_digiPin := None |}.

Definition pothole : Ticket :=
  {| t_id := "TKT1"; t_userId := "bob"; t_category := "pothole";
     t_description := "deep hole"; t_location := Some delhi;
     t_imageUrl := None; t_status := "submitted";
     t_createdAt := 1699999990000; t_updatedAt := 1699999990000;
     t_assignedTo := None; t_resolution := None; t_upvotes := 1 |}.

(** Bob's ticket, already upvoted by alice. *)
Definition voted : World :=
  {| kv := <[ticket_key "TKT1" := VTicket pothole]>
            (<[upvote_key "TKT1" "alice" :=
                 VUpvote {| u_userId := "alice"; u_ticketId := "TKT1";
                            u_createdAt := 1699999995000 |}]> ∅);
     oracle := oracle0 |}.

Definition empty : World := {| kv := ∅; oracle := oracle0 |}.

Definition ping : Call :=
  {| c_type := "ticket_update"; c_title := "Ticket Status Updated";
     c_message := "Your ticket #TKT1 has been assigned";
     c_ticketId := Some "TKT1" |}.

(** A clock that stays within one millisecond. *)
Definition frozen : Oracle :=
  {| clock := fun _ => 1700000000000%Z; ticks := 0;
     random := fun _ => "k3x9q2m7a"; draws := 0 |}.

Definition officer (id : string) : Profile :=
  {| p_id := Some id; p_name := "Officer"; p_role := Some "authority" |}.

Definition citizen (id : string) : Profile :=
  {| p_id := Some id; p_name := "Citizen"; p_role := Some "citizen" |}.

(** Two authorities and one citizen, no ticket yet. *)
Definition registry : gmap string value :=
  <[user_profile_key "off1" := VProfile (officer "off1")]>
    (<[user_profile_key "off2" := VProfile (officer "off2")]>
       (<[user_profile_key "bob" := VProfile (citizen "bob")]> ∅)).

Definition town : World := {| kv := registry; oracle := oracle0 |}.

Definition same_ms : World := {| kv := registry; oracle := frozen |}.

Definition pothole_report : Submission :=
  {| s_category := Some "pothole"; s_description := Some "deep hole";
     s_location := Some delhi; s_imageUrl := None |}.

Definition nowhere : Location :=
  {| loc_lat := None; loc_lng := None; loc_address := None;
     loc_ward := None; loc_digiPin := None |}.

Definition banana_report : Submission :=
  {| s_category := Some "banana"; s_description := None;
     s_location := Some nowhere; s_imageUrl := None |}.

Definition blank_report : Submission :=
  {| s_category := Some ""; s_description := None;
     s_location := Some delhi; s_imageUrl := None |}.

(** Bob's ticket in the town; bob has a profile. *)
Definition reported : World :=
  {| kv := <[ticket_key "TKT1" := VTicket pothole]> registry;
     oracle := oracle0 |}.

(** Bob's ticket where only the officer has a profile. *)
Definition unregistered : World :=
  {| kv := <[ticket_key "TKT1" := VTicket pothole]>
             (<[user_profile_key "off1" := VProfile (officer "off1")]> ∅);
     oracle := oracle0 |}.

Definition fixed : StatusUpdate :=
  {| su_status := "completed"; su_resolution := Some "fixed";
     su_proofImageUrl := Some "https://cdn.example/proof.jpg" |}.

Definition noted : StatusUpdate :=
  {| su_status := "in-progress"; su_resolution := Some "crew sent";
     su_proofImageUrl := None |}.

(** A ticket located on the equator. *)
Definition on_equator : Location :=
  {| loc_lat := Some 0%R; loc_lng := Some 10%R;
     loc_address := Some "Gulf of Guinea"; loc_ward := None;
     loc_digiPin := None |}.

Definition buoy : Ticket :=
  {| t_id := "TKT7"; t_userId := "bob"; t_category := "other";
     t_description := "adrift"; t_location := Some on_equator;
     t_imageUrl := None; t_status := "submitted";
     t_createdAt := 1699999990000; t_updatedAt := 1699999990000;
     t_assignedTo := None; t_resolution := None; t_upvotes := 0 |}.

Definition equator : World :=
  {| kv := <[ticket_key "TKT7" := VTicket buoy]> ∅; oracle := oracle0 |}.

Definition at_buoy : NearbyQuery :=
  {| q_lat := Some 0%R; q_lng := Some 10%R; q_radius := Some 5%R |}.




End Sample.

(** ** Vocabulary of the further statements *)

(** The comparator [key b - key a] of a descending numeric order, and
    the order it sorts into. *)
Definition descending {A} (key : A -> Z) (a b : A) : Z := (key b - key a)%Z.

Definition above {A} (key : A -> Z) (a b : A) : Prop := (key b <= key a)%Z.

(** The ids on a user's ticket-id list, and the ticket stored under an
    id. *)
Definition listed (m : gmap string value) (userId : string) : list string :=
  default [] (m !! user_tickets_key userId ≫= as_ticket_ids).

Definition ticket_of (m : gmap string value) (ticketId : string)
  : option Ticket :=
  m !! ticket_key ticketId ≫= as_ticket.

(** A ticket passes the filters of a listing query: each filter that is
    given (for the ward and the status: given, not empty and not the
    word all) holds of it. *)
Definition passes (q : AllQuery) (ticket : Ticket) : Prop :=
  (forall ward, aq_ward q = Some ward -> ward <> "" -> ward <> "all" ->
     t_location ticket ≫= loc_ward = Some ward)
  /\ (forall status, aq_status q = Some status -> status <> "" ->
        status <> "all" -> t_status ticket = status)
  /\ (forall fromDate, aq_dateFrom q = Some fromDate ->
        (fromDate <= t_createdAt ticket)%Z)
  /\ (forall toDate, aq_dateTo q = Some toDate ->
        (t_createdAt ticket <= toDate)%Z).

(** The unread entries of a feed. *)
Definition unread (l : list Notification) : list Notification :=
  filter (fun n => n_read n = false) l.

(** One entry of the feed after [markRead]. *)
Definition marked (notificationId : string) (n : Notification)
  : Notification :=
  if String.eqb (n_id n) notificationId then with_read n else n.

(** [n'] is the entry [n] with its read flag set to [flag]. *)
Definition flagged (flag : bool) (n n' : Notification) : Prop :=
  n' = {| n_id := n_id n; n_type := n_type n; n_title := n_title n;
          n_message := n_message n; n_ticketId := n_ticketId n;
          n_read := flag; n_createdAt := n_createdAt n |}.

(** The world after the listed voters upvoted a ticket one after the
    other. *)
Definition poll (voters : list string) (ticketId : string) (w : World)
  : World :=
  foldl (fun w voter => (run (upvote (Some voter) ticketId) w).2) w voters.

(** The ward a ticket is grouped under. *)
Definition ward_label (ticket : Ticket) : string :=
  JS.or_string (t_location ticket ≫= loc_ward) "Unknown".

(** The tickets the heatmap groups: those that pass its time and ward
    filters. *)
Definition selection (allTickets : list Ticket)
    (timeFilter wardFilter : string) (dateThreshold : Z) : list Ticket :=
  let allTickets :=
    if String.eqb timeFilter "all" then allTickets
    else filter (fun ticket => (dateThreshold <= t_createdAt ticket)%Z)
                allTickets in
  if String.eqb wardFilter "all" then allTickets
  else filter (fun ticket =>
                 t_location ticket ≫= loc_ward = Some wardFilter)
              allTickets.

(** The names of the members that every object inherits from
    [Object.prototype]: looked up in an object literal, such a name
    gives the inherited member, where a map of the object's own keys
    has nothing. *)
Definition inherited : list string :=
  ["constructor"; "__proto__"; "__defineGetter__"; "__defineSetter__";
   "__lookupGetter__"; "__lookupSetter__"; "hasOwnProperty";
   "isPrototypeOf"; "propertyIsEnumerable"; "toLocaleString"; "toString";
   "valueOf"].

(** The keys under which a ticket is grouped are own keys: its ward
    label, and its category, is no inherited name. *)
Definition own_ward (ticket : Ticket) : Prop :=
  ward_label ticket ∉ inherited.

Definition own_category (ticket : Ticket) : Prop :=
  t_category ticket ∉ inherited.

(** The tickets of a list that are grouped under a ward. *)
Definition in_ward (ward : string) (tickets : list Ticket) : list Ticket :=
  filter (fun ticket => ward_label ticket = ward) tickets.

Definition sumZ (l : list Z) : Z := foldr Z.add 0%Z l.

(** The issue counts of a grouping, added up. *)
Definition issues (m : gmap string WardData) : Z :=
  sumZ ((fun e => wd_issueCount e.2) <$> map_to_list m).

(** The entry [e] counts the tickets [mine] of a ward. *)
Definition counts (ward : string) (mine : list Ticket) (e : WardData)
  : Prop :=
  wd_ward e = ward
  /\ wd_issueCount e = Z.of_nat (length mine)
  /\ wd_criticalCount e
     = Z.of_nat (length (filter (fun t => (15 <= t_upvotes t)%Z) mine))
  /\ wd_totalUpvotes e = sumZ (t_upvotes <$> mine)
  /\ (forall category,
        default 0%Z (wd_categories e !! category)
        = Z.of_nat (length (filter (fun t => t_category t = category) mine))).

(** The entry of a ward tallies the tickets of the ward among
    [tickets], of which there is at least one. *)
Definition tallies (ward : string) (tickets : list Ticket) (e : WardData)
  : Prop :=
  in_ward ward tickets <> [] /\ counts ward (in_ward ward tickets) e.

(** The entry of a ward after one more ticket of the ward. *)
Definition bump (entry : WardData) (ticket : Ticket) : WardData :=
  {| wd_ward := wd_ward entry;
     wd_issueCount := wd_issueCount entry + 1;
     wd_criticalCount :=
       if (15 <=? JS.or_zero (t_upvotes ticket))%Z
       then wd_criticalCount entry + 1 else wd_criticalCount entry;
     wd_totalUpvotes :=
       wd_totalUpvotes entry + JS.or_zero (t_upvotes ticket);
     wd_categories :=
       <[t_category ticket :=
           (JS.or_zero (default 0 (wd_categories entry !! t_category ticket))
            + 1)%Z]>
         (wd_categories entry) |}.

(** The entry a ward starts from. *)
Definition blank (ward : string) : WardData :=
  {| wd_ward := ward; wd_issueCount := 0; wd_criticalCount := 0;
     wd_totalUpvotes := 0; wd_categories := ∅ |}.

(** A grouping holds one entry per ward that has a ticket among
    [tickets], and the entry tallies them. *)
Definition grouped (m : gmap string WardData) (tickets : list Ticket)
  : Prop :=
  forall ward,
    match m !! ward with
    | Some e => tallies ward tickets e
    | None => in_ward ward tickets = []
    end.

(** The threshold and the tickets a heatmap request groups: the time
    filter defaults to week, the ward filter to all, and the two clock
    readings of the handler give [now] and the date the threshold is
    cut from. *)
Definition heatmap_threshold (date : DateApi) (timeFilter : option string)
    (w : World) : Z :=
  threshold_of date (JS.or_string timeFilter "week")
    (clock (oracle w) (ticks (oracle w)))
    (clock (oracle w) (S (ticks (oracle w)))).

Definition heatmap_selected (date : DateApi)
    (timeFilter wardFilter : option string) (w : World) : list Ticket :=
  selection (stored_tickets (kv w)) (JS.or_string timeFilter "week")
    (JS.or_string wardFilter "all") (heatmap_threshold date timeFilter w).


(** A string without a dot. *)
Definition dotless (s : string) : Prop :=
  Forall (fun c => c <> "."%char) (String.list_ascii_of_string s).

(** ** Further sample data *)

Module Cases.

Definition plain (id owner ward status : string) (created votes : Z)
  : Ticket :=
  {| t_id := id; t_userId := owner; t_category := "streetlight";
     t_description := "";
     t_location :=
       Some {| loc_lat := None; loc_lng := None; loc_address := None;
               loc_ward := Some ward; loc_digiPin := None |};
     t_imageUrl := None; t_status := status;
     t_createdAt := created; t_updatedAt := created;
     t_assignedTo := None; t_resolution := None; t_upvotes := votes |}.

Definition old : Ticket := plain "TKT1" "bob" "Ward 3" "submitted" 1000 4.
Definition recent : Ticket := plain "TKT2" "bob" "Ward 7" "assigned" 2000 20.
Definition other : Ticket := plain "TKT3" "eve" "Ward 3" "submitted" 3000 9.

(** Three tickets; bob's list also names an id that has no ticket. *)
Definition archive : World :=
  {| kv := <[ticket_key "TKT1" := VTicket old]>
             (<[ticket_key "TKT2" := VTicket recent]>
                (<[ticket_key "TKT3" := VTicket other]>
                   (<[user_tickets_key "bob" :=
                        VTicketIds ["TKT1"; "TKT9"; "TKT2"]]>
                      (<[user_tickets_key "eve" := VTicketIds ["TKT3"]]>
                         Sample.registry))));
     oracle := Sample.oracle0 |}.

Definition ward3_by_votes : AllQuery :=
  {| aq_ward := Some "Ward 3"; aq_status := Some "all";
     aq_dateFrom := Some 500%Z; aq_dateTo := None;
     aq_sortBy := Some "upvotes" |}.

Definition everything : AllQuery :=
  {| aq_ward := None; aq_status := None; aq_dateFrom := None;
     aq_dateTo := None; aq_sortBy := None |}.

(** A stand-in for [localeCompare]: equal strings compare as 0, others
    by the order of their code units. *)
Definition code_unit_order (a b : string) : Z :=
  match String.compare a b with
  | Eq => 0%Z
  | Lt => (-1)%Z
  | Gt => 1%Z
  end.

Definition note (id : string) (created : Z) (read : bool) : Notification :=
  {| n_id := id; n_type := "ticket_update";
     n_title := "Ticket Status Updated";
     n_message := "Your ticket #TKT1 has been assigned";
     n_ticketId := Some "TKT1"; n_read := read; n_createdAt := created |}.

(** Bob's feed: three entries, newest first, the middle one read. *)
Definition inbox : World :=
  {| kv := <[notifications_key "bob" :=
               VNotifications [note "n3" 3000 false; note "n2" 2000 true;
                               note "n1" 1000 false]]> Sample.registry;
     oracle := Sample.oracle0 |}.

(** The three tickets, read a little after the newest was created. *)
Definition survey : World :=
  {| kv := kv archive;
     oracle := {| clock := fun n => (5000 + Z.of_nat n)%Z; ticks := 0;
                  random := fun _ => "k3x9q2m7a"; draws := 0 |} |}.

End Cases.


(** * Properties *)

(** ** Keys of different families never coincide *)

Ltac key_discriminate :=
  unfold ticket_key, user_tickets_key, user_profile_key, upvote_key,
    notifications_key; cbv [String.append]; congruence.

Lemma notifications_key_inj u v :
  notifications_key u = notifications_key v -> u = v.
Proof. key_discriminate. Qed.

Lemma ticket_key_inj a b : ticket_key a = ticket_key b -> a = b.
Proof. key_discriminate. Qed.

Lemma notifications_not_ticket u a : notifications_key u <> ticket_key a.
Proof. key_discriminate. Qed.

Lemma notifications_not_upvote u a b : notifications_key u <> upvote_key a b.
Proof. key_discriminate. Qed.

Lemma notifications_not_user_tickets u a :
  notifications_key u <> user_tickets_key a.
Proof. key_discriminate. Qed.

Lemma notifications_not_profile u a :
  notifications_key u <> user_profile_key a.
Proof. key_discriminate. Qed.

Lemma ticket_not_upvote a b c : ticket_key a <> upvote_key b c.
Proof. key_discriminate. Qed.

Lemma ticket_not_user_tickets a b : ticket_key a <> user_tickets_key b.
Proof. key_discriminate. Qed.

Lemma ticket_not_profile a b : ticket_key a <> user_profile_key b.
Proof. key_discriminate. Qed.

Lemma user_tickets_not_profile a b : user_tickets_key a <> user_profile_key b.
Proof. key_discriminate. Qed.

Create HintDb keys.

#[local] Hint Resolve notifications_not_ticket notifications_not_upvote
  notifications_not_user_tickets notifications_not_profile
  ticket_not_upvote ticket_not_user_tickets ticket_not_profile
  user_tickets_not_profile : keys.

(** ** Running the monad *)

Lemma run_bind {A B} (c : M A) (k : A -> M B) w :
  run (bind c k) w = run (k (run c w).1) (run c w).2.
Proof. unfold run, bind. destruct (c w); reflexivity. Qed.

Lemma run_ret {A} (a : A) w : run (ret a) w = (a, w).
Proof. reflexivity. Qed.

Lemma run_get key w : run (Kv.get key) w = (kv w !! key, w).
Proof. reflexivity. Qed.

Lemma run_set key v w :
  run (Kv.set key v) w =
  (tt, {| kv := <[key := v]> (kv w); oracle := oracle w |}).
Proof. reflexivity. Qed.

Lemma run_getByPrefix p w :
  run (Kv.getByPrefix p) w = (Kv.scan p (kv w), w).
Proof. reflexivity. Qed.

Lemma run_now w :
  run Date_now w =
  (clock (oracle w) (ticks (oracle w)),
   {| kv := kv w; oracle := tick (oracle w) |}).
Proof. reflexivity. Qed.

Lemma run_get_ticket ticketId w :
  run (get_ticket ticketId) w =
  (kv w !! ticket_key ticketId ≫= as_ticket, w).
Proof. reflexivity. Qed.

(** ** The notification helper *)

Lemma splice_50 (l : list Notification) :
  (if (50 <? length l)%nat then take 50 l else l) = take 50 l.
Proof.
  destruct (50 <? length l)%nat eqn:E; [reflexivity|].
  apply Nat.ltb_ge in E. symmetry. apply take_ge. exact E.
Qed.

Lemma createNotification_run userId type title message ticketId w :
  run (createNotification userId type title message ticketId) w =
  (tt, {| kv := <[notifications_key userId :=
                    VNotifications
                      (take 50 (new_notification (oracle w) type title
                                  message ticketId
                                :: feed (kv w) userId))]> (kv w);
          oracle := elapse (oracle w) |}).
Proof.
  unfold run, createNotification, bind, Kv.get, Kv.set, Date_now,
    random_suffix. cbn [kv oracle].
  rewrite splice_50. reflexivity.
Qed.

Lemma feed_insert_same m u l :
  feed (<[notifications_key u := VNotifications l]> m) u = l.
Proof. unfold feed. rewrite lookup_insert_eq. reflexivity. Qed.

Lemma feed_insert_other m k v u :
  k <> notifications_key u -> feed (<[k := v]> m) u = feed m u.
Proof.
  intros H. unfold feed. rewrite lookup_insert_ne; [reflexivity|exact H].
Qed.

Lemma take_app_take {A} (l1 l2 : list A) n :
  take n (l1 ++ take n l2) = take n (l1 ++ l2).
Proof.
  rewrite !take_app. f_equal. rewrite take_take. f_equal. lia.
Qed.

Lemma notify_all_cons userId c rest w :
  run (notify_all userId (c :: rest)) w =
  run (notify_all userId rest) (run (notify userId c) w).2.
Proof. unfold notify_all. cbn [for_each]. apply run_bind. Qed.

Lemma notify_all_feed userId rest : forall c w,
  feed (kv (run (notify_all userId (c :: rest)) w).2) userId =
  take 50 (reverse (created (oracle w) (c :: rest)) ++ feed (kv w) userId).
Proof.
  induction rest as [|c' rest IH]; intros c w; rewrite notify_all_cons;
    unfold notify; rewrite createNotification_run; cbn [snd].
  - cbn. rewrite feed_insert_same. reflexivity.
  - rewrite IH. cbn [kv oracle]. rewrite feed_insert_same.
    rewrite take_app_take.
    change (created (oracle w) (c :: c' :: rest))
      with (new_notification (oracle w) (c_type c) (c_title c) (c_message c)
              (c_ticketId c) :: created (elapse (oracle w)) (c' :: rest)).
    rewrite (reverse_cons (created _ _)), <- app_assoc. reflexivity.
Qed.

Lemma created_length o calls : length (created o calls) = length calls.
Proof.
  revert o. induction calls as [|c rest IH]; intros o; cbn; [|rewrite IH];
    reflexivity.
Qed.

(** C9. Notify prepends the new entry to the recipient's feed and cuts
    the feed after its 50th entry: one call leaves the new entry
    followed by the former feed, the first 50 of them; the feed is
    never longer than 50; a run of calls leaves the entries it built,
    newest first, before the former feed, cut at 50; and 51 calls on an
    empty feed leave the last 50 built, the first one (the oldest)
    being gone. *)
Theorem createNotification_prepends_and_caps
    (userId : string) (c : Call) (calls : list Call) (w : World) :
  let one := (run (notify userId c) w).2 in
  let all := (run (notify_all userId (c :: calls)) w).2 in
  feed (kv one) userId =
    take 50 (new_notification (oracle w) (c_type c) (c_title c)
               (c_message c) (c_ticketId c) :: feed (kv w) userId)
  /\ (length (feed (kv one) userId) <= 50)%nat
  /\ feed (kv all) userId =
       take 50 (reverse (created (oracle w) (c :: calls))
                ++ feed (kv w) userId)
  /\ (length (feed (kv all) userId) <= 50)%nat
  /\ (feed (kv w) userId = [] -> length (c :: calls) = 51%nat ->
      feed (kv all) userId = reverse (created (elapse (oracle w)) calls)
      /\ length (feed (kv all) userId) = 50%nat).
Proof.
  intros one all. subst one all.
  assert (H1 : feed (kv (run (notify userId c) w).2) userId =
    take 50 (new_notification (oracle w) (c_type c) (c_title c)
               (c_message c) (c_ticketId c) :: feed (kv w) userId)).
  { unfold notify. rewrite createNotification_run. cbn [snd kv].
    apply feed_insert_same. }
  split; [exact H1|]. split; [rewrite H1, length_take; lia|].
  rewrite notify_all_feed.
  split; [reflexivity|]. split; [rewrite length_take; lia|].
  intros Hempty Hlen. rewrite Hempty, app_nil_r.
  cbn [created]. rewrite reverse_cons.
  assert (Hl : length (reverse (created (elapse (oracle w)) calls)) = 50%nat).
  { rewrite length_reverse, created_length. cbn in Hlen. lia. }
  rewrite take_app_length' by (symmetry; exact Hl). split; [reflexivity | exact Hl].
Qed.

(** The sample run of C9: 51 calls on an empty feed. *)
Lemma createNotification_prepends_and_caps_witness :
  feed (kv (run (notify_all "bob" (Sample.ping :: replicate 50 Sample.ping))
              Sample.empty).2) "bob"
  = reverse (created (elapse Sample.oracle0) (replicate 50 Sample.ping))
  /\ length (feed (kv (run (notify_all "bob"
                             (Sample.ping :: replicate 50 Sample.ping))
                         Sample.empty).2) "bob") = 50%nat.
Proof.
  destruct (createNotification_prepends_and_caps "bob" Sample.ping
              (replicate 50 Sample.ping) Sample.empty)
    as (_ & _ & _ & _ & H).
  apply H; reflexivity.
Defined.

(** ** Upvote *)

Ltac run_steps :=
  repeat first
    [ rewrite run_bind | rewrite run_get | rewrite run_set | rewrite run_now
    | rewrite run_get_ticket | rewrite run_ret | rewrite run_getByPrefix
    | rewrite createNotification_run
    | progress cbn [fst snd kv oracle] ].

Lemma or_zero_id n : JS.or_zero n = n.
Proof. unfold JS.or_zero. destruct (Z.eqb_spec n 0); congruence. Qed.

Lemma upvote_run user userId ticketId ticket w :
  authenticated user = Some userId ->
  kv w !! ticket_key ticketId = Some (VTicket ticket) ->
  kv w !! upvote_key ticketId userId = None ->
  let voted := with_upvotes ticket (t_upvotes ticket + 1)%Z in
  let stored :=
    <[ticket_key ticketId := VTicket voted]>
      (<[upvote_key ticketId userId :=
           VUpvote {| u_userId := userId; u_ticketId := ticketId;
                      u_createdAt := clock (oracle w) (ticks (oracle w)) |}]>
         (kv w)) in
  run (upvote user ticketId) w =
  (json (BTicket voted "Upvoted successfully") 200,
   if String.eqb (t_userId ticket) userId
   then {| kv := stored; oracle := tick (oracle w) |}
   else
     {| kv :=
          <[notifications_key (t_userId ticket) :=
              VNotifications
                (take 50
                   (new_notification (tick (oracle w)) "ticket_upvote"
                      "Your Issue Got Support"
                      ("Someone upvoted your ticket #" +:+ ticketId +:+
                       ". Total votes: " +:+ pretty (t_upvotes ticket + 1)%Z)
                      (Some ticketId)
                    :: feed (kv w) (t_userId ticket)))]> stored;
        oracle := elapse (tick (oracle w)) |}).
Proof.
  intros Hauth Hticket Hfree voted stored.
  unfold upvote. rewrite Hauth. run_steps. rewrite Hticket.
  cbn [mbind option_bind as_ticket].
  run_steps. rewrite Hfree. run_steps. rewrite or_zero_id.
  cbn [with_upvotes t_userId t_upvotes].
  destruct (String.eqb (t_userId ticket) userId) eqn:E; cbn [negb]; run_steps.
  - reflexivity.
  - rewrite !feed_insert_other by auto with keys. reflexivity.
Qed.

(** C1, as the code has it. An upvote on a ticket id that is not stored
    is answered 404 (Ticket not found); an upvote by a voter whose upvote
    record for the ticket is stored is answered 400 (Already upvoted),
    not 409. In both cases nothing is written: the store, and with it
    the ticket's count, is as before. *)
Theorem upvote_rejections (user : option string) (userId ticketId : string)
    (w : World) :
  authenticated user = Some userId ->
  (kv w !! ticket_key ticketId = None ->
   run (upvote user ticketId) w = (json (BError "Ticket not found") 404, w))
  /\ (forall ticket record,
        kv w !! ticket_key ticketId = Some (VTicket ticket) ->
        kv w !! upvote_key ticketId userId = Some record ->
        run (upvote user ticketId) w
        = (json (BError "Already upvoted") 400, w)).
Proof.
  intros Hauth. split.
  - intros Hnone. unfold upvote. rewrite Hauth. run_steps.
    rewrite Hnone. reflexivity.
  - intros ticket record Hticket Hrecord. unfold upvote. rewrite Hauth.
    run_steps. rewrite Hticket. cbn [mbind option_bind as_ticket].
    run_steps. rewrite Hrecord. reflexivity.
Qed.

Lemma upvote_rejections_witness :
  run (upvote (Some "alice") "TKT404") Sample.voted
  = (json (BError "Ticket not found") 404, Sample.voted)
  /\ run (upvote (Some "alice") "TKT1") Sample.voted
     = (json (BError "Already upvoted") 400, Sample.voted).
Proof.
  split.
  - apply (upvote_rejections (Some "alice") "alice" "TKT404" Sample.voted);
      reflexivity.
  - eapply (upvote_rejections (Some "alice") "alice" "TKT1" Sample.voted);
      reflexivity.
Defined.

(** C1 as stated fails: alice has an upvote record for ticket TKT1, and
    her second upvote is answered 400, not 409. *)
Lemma upvote_conflict_is_not_409 :
  is_Some (kv Sample.voted !! ticket_key "TKT1")
  /\ is_Some (kv Sample.voted !! upvote_key "TKT1" "alice")
  /\ status (run (upvote (Some "alice") "TKT1") Sample.voted).1 = 400%Z
  /\ status (run (upvote (Some "alice") "TKT1") Sample.voted).1 <> 409%Z.
Proof.
  repeat split; try (vm_compute; eauto; fail).
  vm_compute. discriminate.
Qed.

(** C2. An upvote by a voter with no upvote record on a stored ticket
    succeeds: the answered ticket is the stored one with [upvotes] one
    higher; the updated ticket and the upvote record are both stored;
    when the voter is not the reporter, the reporter's feed receives one
    [ticket_upvote] entry whose message carries the new total; when the
    voter is the reporter no feed changes; no other feed changes in
    either case. *)
Theorem upvote_success (user : option string) (userId ticketId : string)
    (ticket : Ticket) (w : World) :
  authenticated user = Some userId ->
  kv w !! ticket_key ticketId = Some (VTicket ticket) ->
  kv w !! upvote_key ticketId userId = None ->
  let voted := with_upvotes ticket (t_upvotes ticket + 1)%Z in
  let reporter := t_userId ticket in
  let out := run (upvote user ticketId) w in
  out.1 = json (BTicket voted "Upvoted successfully") 200
  /\ t_upvotes voted = (t_upvotes ticket + 1)%Z
  /\ kv out.2 !! ticket_key ticketId = Some (VTicket voted)
  /\ kv out.2 !! upvote_key ticketId userId =
       Some (VUpvote {| u_userId := userId; u_ticketId := ticketId;
                        u_createdAt :=
                          clock (oracle w) (ticks (oracle w)) |})
  /\ (reporter <> userId ->
      feed (kv out.2) reporter =
      take 50
        (new_notification (tick (oracle w)) "ticket_upvote"
           "Your Issue Got Support"
           ("Someone upvoted your ticket #" +:+ ticketId +:+
            ". Total votes: " +:+ pretty (t_upvotes ticket + 1)%Z)
           (Some ticketId)
         :: feed (kv w) reporter))
  /\ (reporter = userId -> feed (kv out.2) reporter = feed (kv w) reporter)
  /\ (forall other, other <> reporter ->
        feed (kv out.2) other = feed (kv w) other).
Proof.
  intros Hauth Hticket Hfree voted reporter out. subst out.
  rewrite (upvote_run user userId ticketId ticket w Hauth Hticket Hfree).
  fold voted. cbn [fst snd]. subst reporter.
  split; [reflexivity|]. split; [reflexivity|].
  destruct (String.eqb_spec (t_userId ticket) userId) as [Heq|Hne];
    cbn [kv].
  - split; [apply lookup_insert_eq|].
    split.
    { rewrite lookup_insert_ne by auto with keys. apply lookup_insert_eq. }
    split; [intros H; contradiction|].
    split; intros; rewrite !feed_insert_other by auto with keys;
      reflexivity.
  - split.
    { rewrite lookup_insert_ne by auto with keys. apply lookup_insert_eq. }
    split.
    { rewrite !lookup_insert_ne by auto with keys. apply lookup_insert_eq. }
    split; [intros _; apply feed_insert_same|].
    split; [intros H; contradiction|].
    intros other Hother. rewrite !feed_insert_other; auto with keys.
    intros H. apply notifications_key_inj in H. congruence.
Qed.

(** A sample run of C2: carol, who has not voted yet, upvotes bob's
    ticket. *)
Lemma upvote_success_witness :
  (run (upvote (Some "carol") "TKT1") Sample.voted).1
  = json (BTicket (with_upvotes Sample.pothole 2) "Upvoted successfully") 200.
Proof.
  apply (upvote_success (Some "carol") "carol" "TKT1" Sample.pothole
           Sample.voted); reflexivity.
Defined.

(** ** Submission *)

Lemma scan_insert_other p k v (m : gmap string value) :
  String.prefix p k = false -> Kv.scan p (<[k := v]> m) = Kv.scan p m.
Proof.
  intros Hk. unfold Kv.scan. f_equal. f_equal.
  rewrite map_filter_insert_False by (cbn; congruence).
  rewrite map_filter_delete. apply delete_id.
  apply map_lookup_filter_None. right. intros x _. cbn. congruence.
Qed.

Lemma scan_profiles_ticket a v m :
  Kv.scan "user_profile_" (<[ticket_key a := v]> m) = Kv.scan "user_profile_" m.
Proof. apply scan_insert_other. reflexivity. Qed.

Lemma scan_profiles_user_tickets a v m :
  Kv.scan "user_profile_" (<[user_tickets_key a := v]> m)
  = Kv.scan "user_profile_" m.
Proof. apply scan_insert_other. reflexivity. Qed.

Lemma elem_of_scan p (m : gmap string value) v :
  v ∈ Kv.scan p m <-> exists key, String.prefix p key = true /\ m !! key = Some v.
Proof.
  unfold Kv.scan. rewrite list_elem_of_fmap. split.
  - intros [[k v'] [-> H]]. apply elem_of_map_to_list in H.
    apply map_lookup_filter_Some in H as [H1 H2]. exists k. split; assumption.
  - intros [k [H1 H2]]. exists (k, v). split; [reflexivity|].
    apply elem_of_map_to_list. apply map_lookup_filter_Some. split; assumption.
Qed.

Section Broadcast.

Variables (ticketId message : string).

Let send (authority : Profile) : M unit :=
  createNotification (JS.template (p_id authority)) "new_ticket"
    "New Issue Reported" message (Some ticketId).

Lemma broadcast_frame (ps : list Profile) : forall w key,
  (forall u, key <> notifications_key u) ->
  kv (run (for_each ps send) w).2 !! key = kv w !! key.
Proof.
  induction ps as [|p ps IH]; intros w key Hkey; [reflexivity|].
  unfold send in *. cbn [for_each]. rewrite run_bind.
  rewrite IH by exact Hkey.
  rewrite createNotification_run. cbn [snd kv].
  apply lookup_insert_ne. auto.
Qed.

Lemma broadcast_feed (ps : list Profile) : forall w u,
  exists ns,
    length ns = length (filter (fun p => JS.template (p_id p) = u) ps)
    /\ Forall (announces ticketId message) ns
    /\ (ns = [] -> feed (kv (run (for_each ps send) w).2) u = feed (kv w) u)
    /\ (ns <> [] ->
        feed (kv (run (for_each ps send) w).2) u
        = take 50 (ns ++ feed (kv w) u)).
Proof.
  induction ps as [|p ps IH]; intros w u.
  - exists []. repeat split; [constructor | congruence].
  - unfold send in *. cbn [for_each]. rewrite run_bind.
    rewrite createNotification_run. cbn [snd].
    match goal with |- context [run (for_each ps ?f) ?w1] =>
      destruct (IH w1 u) as (ns & Hlen & Hall & Hnil & Hcons) end.
    cbn [kv oracle] in Hnil, Hcons.
    rewrite filter_cons.
    destruct (decide (JS.template (p_id p) = u)) as [Hu|Hu].
    + subst u. rewrite feed_insert_same in Hnil, Hcons.
      exists (ns ++ [new_notification (oracle w) "new_ticket"
                       "New Issue Reported" message (Some ticketId)]).
      split; [rewrite length_app; cbn; lia|].
      split.
      { apply Forall_app. split; [exact Hall|]. constructor; [|constructor].
        unfold announces. cbn. repeat split. }
      split; [intros H; destruct ns; discriminate|]. intros _.
      destruct ns as [|n ns].
      * rewrite Hnil by reflexivity. reflexivity.
      * rewrite Hcons by discriminate. rewrite take_app_take.
        rewrite <- app_assoc. reflexivity.
    + rewrite feed_insert_other in Hnil, Hcons
        by (intros H; apply notifications_key_inj in H; congruence).
      exists ns. repeat split; assumption.
Qed.

End Broadcast.

Lemma required_fields_Some req category location :
  s_category req = Some category -> JS.truthy_string category = true ->
  s_location req = Some location ->
  required_fields req = Some (category, location).
Proof. unfold required_fields. intros -> -> ->. reflexivity. Qed.

Lemma required_fields_None req :
  JS.truthy (s_category req) = false \/ s_location req = None ->
  required_fields req = None.
Proof.
  unfold required_fields, JS.truthy.
  destruct (s_category req) as [c|], (s_location req) as [l|];
    intros [H|H]; try reflexivity; try discriminate.
  rewrite H. reflexivity.
Qed.

Lemma submitTicket_run user userId req category location w :
  authenticated user = Some userId ->
  required_fields req = Some (category, location) ->
  let ticket := submitted userId req category location (oracle w) in
  let ticketId := t_id ticket in
  let stored :=
    <[user_tickets_key userId :=
        VTicketIds
          (default [] (kv w !! user_tickets_key userId ≫= as_ticket_ids)
           ++ [ticketId])]>
      (<[ticket_key ticketId := VTicket ticket]> (kv w)) in
  run (submitTicket user req) w =
  (json (BTicket ticket "Ticket submitted successfully") 200,
   (run (for_each (authorities (kv w))
           (fun authority =>
              createNotification (JS.template (p_id authority)) "new_ticket"
                "New Issue Reported" (announcement category location)
                (Some ticketId)))
        {| kv := stored; oracle := tick (tick (tick (oracle w))) |}).2).
Proof.
  intros Hauth Hreq ticket ticketId stored.
  unfold submitTicket. rewrite Hauth, Hreq. run_steps.
  rewrite lookup_insert_ne by auto with keys.
  rewrite scan_profiles_user_tickets, scan_profiles_ticket.
  reflexivity.
Qed.

(** C3, as the code has it. A submission with a truthy category and a
    location is answered with the new ticket: its id is TKT followed by
    the clock reading in milliseconds (so it is new only if no ticket was
    made in the same millisecond), its status is submitted and its
    upvotes 0. The ticket is stored under its id, the id is appended to
    the reporter's ticket-id list, every other ticket is left as it was,
    and each user's feed receives as many [new_ticket] entries about the
    ticket as there are authority profiles carrying that user's id: one
    per authority profile. *)
Theorem submitTicket_success (user : option string) (userId : string)
    (req : Submission) (category : string) (location : Location) (w : World) :
  authenticated user = Some userId ->
  s_category req = Some category -> JS.truthy_string category = true ->
  s_location req = Some location ->
  let ticket := submitted userId req category location (oracle w) in
  let ticketId := "TKT" +:+ pretty (clock (oracle w) (ticks (oracle w))) in
  let out := run (submitTicket user req) w in
  out.1 = json (BTicket ticket "Ticket submitted successfully") 200
  /\ t_id ticket = ticketId
  /\ t_status ticket = "submitted"
  /\ t_upvotes ticket = 0%Z
  /\ kv out.2 !! ticket_key ticketId = Some (VTicket ticket)
  /\ kv out.2 !! user_tickets_key userId =
       Some (VTicketIds
               (default [] (kv w !! user_tickets_key userId ≫= as_ticket_ids)
                ++ [ticketId]))
  /\ (forall other, other <> ticketId ->
        kv out.2 !! ticket_key other = kv w !! ticket_key other)
  /\ (forall u, exists ns,
        length ns =
          length (filter (fun p => JS.template (p_id p) = u)
                         (authorities (kv w)))
        /\ Forall (announces ticketId (announcement category location)) ns
        /\ (ns = [] -> feed (kv out.2) u = feed (kv w) u)
        /\ (ns <> [] -> feed (kv out.2) u = take 50 (ns ++ feed (kv w) u))).
Proof.
  intros Hauth Hcat Htruthy Hloc ticket ticketId out. subst out.
  rewrite (submitTicket_run user userId req category location w Hauth
             (required_fields_Some _ _ _ Hcat Htruthy Hloc)).
  fold ticket. change (t_id ticket) with ticketId. cbn [fst snd].
  split; [reflexivity|]. split; [reflexivity|]. split; [reflexivity|].
  split; [reflexivity|].
  split.
  { rewrite broadcast_frame by auto with keys. cbn [kv].
    rewrite lookup_insert_ne by auto with keys. apply lookup_insert_eq. }
  split.
  { rewrite broadcast_frame by auto with keys. cbn [kv].
    apply lookup_insert_eq. }
  split.
  { intros other Hother. rewrite broadcast_frame by auto with keys. cbn [kv].
    rewrite !lookup_insert_ne; auto with keys.
    intros H. apply ticket_key_inj in H. congruence. }
  intros u.
  match goal with |- context [run (for_each _ _) ?w1] =>
    destruct (broadcast_feed ticketId (announcement category location)
                (authorities (kv w)) w1 u) as (ns & Hlen & Hall & Hnil & Hcons)
  end.
  cbn [kv] in Hnil, Hcons.
  rewrite !feed_insert_other in Hnil, Hcons by auto with keys.
  exists ns. repeat split; assumption.
Qed.

(** A sample run of C3: bob reports a pothole in a town with two
    authorities. *)
Lemma submitTicket_success_witness :
  (run (submitTicket (Some "bob") Sample.pothole_report) Sample.town).1
  = json (BTicket (submitted "bob" Sample.pothole_report "pothole"
                     Sample.delhi Sample.oracle0)
            "Ticket submitted successfully") 200.
Proof.
  apply (submitTicket_success (Some "bob") "bob" Sample.pothole_report
           "pothole" Sample.delhi Sample.town); reflexivity.
Defined.

(** C3 as stated fails on the fresh id: two submissions within one
    millisecond get the same id, and the second ticket replaces the
    first in the store. *)
Lemma submitTicket_id_not_fresh :
  let first :=
    run (submitTicket (Some "bob") Sample.pothole_report) Sample.same_ms in
  let second :=
    run (submitTicket (Some "alice") Sample.pothole_report) first.2 in
  let t1 := submitted "bob" Sample.pothole_report "pothole" Sample.delhi
              Sample.frozen in
  let t2 := submitted "alice" Sample.pothole_report "pothole" Sample.delhi
              Sample.frozen in
  first.1 = json (BTicket t1 "Ticket submitted successfully") 200
  /\ second.1 = json (BTicket t2 "Ticket submitted successfully") 200
  /\ t_id t2 = t_id t1
  /\ kv first.2 !! ticket_key (t_id t2) = Some (VTicket t1)
  /\ kv second.2 !! ticket_key (t_id t1) = Some (VTicket t2)
  /\ t1 <> t2.
Proof.
  cbv zeta. repeat split; try (vm_compute; reflexivity).
  intros H. apply (f_equal t_userId) in H. vm_compute in H. discriminate.
Qed.

(** C4, as the code has it. A submission is refused, with answer 400
    and nothing written, exactly when its category is missing or empty
    or its location is missing; any other category, whether or not one
    of the eight known ones, and any location, with or without
    coordinates, is accepted. *)
Theorem submitTicket_validation (user : option string) (userId : string)
    (req : Submission) (w : World) :
  authenticated user = Some userId ->
  (JS.truthy (s_category req) = false \/ s_location req = None ->
   run (submitTicket user req) w
   = (json (BError "Category and location are required") 400, w))
  /\ (JS.truthy (s_category req) = true -> is_Some (s_location req) ->
      status (run (submitTicket user req) w).1 = 200%Z).
Proof.
  intros Hauth. split.
  - intros H. unfold submitTicket.
    rewrite Hauth, (required_fields_None req H). reflexivity.
  - intros Hcat [location Hloc].
    destruct (s_category req) as [category|] eqn:E; [|discriminate].
    rewrite (submitTicket_run user userId req category location w Hauth
               (required_fields_Some _ _ _ E Hcat Hloc)).
    reflexivity.
Qed.

Lemma submitTicket_validation_witness :
  run (submitTicket (Some "bob") Sample.blank_report) Sample.town
  = (json (BError "Category and location are required") 400, Sample.town)
  /\ status (run (submitTicket (Some "bob") Sample.pothole_report)
               Sample.town).1 = 200%Z.
Proof.
  split.
  - apply (submitTicket_validation (Some "bob") "bob" Sample.blank_report
             Sample.town); [reflexivity | left; reflexivity].
  - apply (submitTicket_validation (Some "bob") "bob" Sample.pothole_report
             Sample.town); [reflexivity | reflexivity | eexists; reflexivity].
Defined.

(** C4 as stated fails: a category outside the known ones, with a
    location that carries no coordinates, is accepted and stored. *)
Lemma submitTicket_accepts_unknown_category :
  let out :=
    run (submitTicket (Some "bob") Sample.banana_report) Sample.town in
  s_category Sample.banana_report = Some "banana"
  /\ (s_location Sample.banana_report ≫= loc_lat) = None
  /\ (s_location Sample.banana_report ≫= loc_lng) = None
  /\ status out.1 = 200%Z
  /\ kv out.2 !! ticket_key "TKT1700000000000"
     = Some (VTicket (submitted "bob" Sample.banana_report "banana"
                        Sample.nowhere Sample.oracle0))
  /\ kv Sample.town !! ticket_key "TKT1700000000000" = None.
Proof. cbv zeta. repeat split; vm_compute; reflexivity. Qed.

(** ** Status update *)

Lemma updateStatus_run user userId ticketId req profile ticket w :
  authenticated user = Some userId ->
  kv w !! user_profile_key userId = Some (VProfile profile) ->
  p_role profile = Some "authority" ->
  kv w !! ticket_key ticketId = Some (VTicket ticket) ->
  let ticket' := updated userId req ticket (oracle w) in
  let reporter := t_userId ticket in
  let o1 := after_update req (oracle w) in
  let stored := <[ticket_key ticketId := VTicket ticket']> (kv w) in
  let n_upd :=
    new_notification o1 "ticket_update" "Ticket Status Updated"
      (status_message ticketId (su_status req)) (Some ticketId) in
  let n_res :=
    new_notification (elapse o1) "resolution" "Issue Resolved"
      (resolution_message ticketId) (Some ticketId) in
  let told :=
    <[notifications_key reporter :=
        VNotifications (take 50 (n_upd :: feed (kv w) reporter))]> stored in
  run (updateStatus user ticketId req) w =
  (json (BTicket ticket' "Ticket updated successfully") 200,
   match kv w !! user_profile_key reporter with
   | None => {| kv := stored; oracle := o1 |}
   | Some _ =>
       if String.eqb (su_status req) "completed"
          && JS.truthy (su_proofImageUrl req)
       then
         {| kv :=
              <[notifications_key reporter :=
                  VNotifications
                    (take 50 (n_res :: take 50 (n_upd :: feed (kv w) reporter)))]>
                told;
            oracle := elapse (elapse o1) |}
       else {| kv := told; oracle := elapse o1 |}
   end).
Proof.
  intros Hauth Hprofile Hrole Hticket ticket' reporter o1 stored n_upd n_res
    told.
  unfold updateStatus. rewrite Hauth. run_steps. rewrite Hprofile.
  cbn [mbind option_bind as_profile]. rewrite Hrole.
  rewrite bool_decide_eq_true_2 by reflexivity.
  run_steps. rewrite Hticket. cbn [mbind option_bind as_ticket]. run_steps.
  assert (Hres :
    run (if JS.truthy (su_resolution req)
         then
           let* resolved := Date_now in
           ret (Some {| res_notes := JS.template (su_resolution req);
                        res_proofImageUrl := JS.or_null (su_proofImageUrl req);
                        res_resolvedBy := userId;
                        res_resolvedAt := resolved |})
         else ret (t_resolution ticket))
        {| kv := kv w; oracle := tick (oracle w) |}
    = (t_resolution ticket', {| kv := kv w; oracle := o1 |})).
  { subst ticket' o1. unfold after_update, updated. cbn [t_resolution].
    destruct (JS.truthy (su_resolution req)); run_steps; reflexivity. }
  rewrite Hres. run_steps.
  rewrite lookup_insert_ne by auto with keys.
  cbn [t_userId]. fold reporter.
  destruct (kv w !! user_profile_key reporter) as [owner|]; run_steps.
  - rewrite feed_insert_other by auto with keys. fold reporter.
    destruct (String.eqb (su_status req) "completed"
              && JS.truthy (su_proofImageUrl req)); run_steps.
    + rewrite feed_insert_same. reflexivity.
    + reflexivity.
  - reflexivity.
Qed.

(** C5. A status update by an authority on a stored ticket sets the
    ticket's status to the requested one, [updatedAt] to the clock
    reading and [assignedTo] to the actor, and stores the ticket; when
    resolution notes are given (a non-empty string, the code's test
    [if (resolution)]) the resolution record holds the notes, the actor
    as resolver and the next clock reading as [resolvedAt], whatever the
    requested status; without notes the former record stays. The other
    fields are as before. *)
Theorem updateStatus_success (user : option string) (userId ticketId : string)
    (req : StatusUpdate) (profile : Profile) (ticket : Ticket) (w : World) :
  authenticated user = Some userId ->
  kv w !! user_profile_key userId = Some (VProfile profile) ->
  p_role profile = Some "authority" ->
  kv w !! ticket_key ticketId = Some (VTicket ticket) ->
  let out := run (updateStatus user ticketId req) w in
  exists ticket',
    out.1 = json (BTicket ticket' "Ticket updated successfully") 200
    /\ kv out.2 !! ticket_key ticketId = Some (VTicket ticket')
    /\ t_status ticket' = su_status req
    /\ t_updatedAt ticket' = clock (oracle w) (ticks (oracle w))
    /\ t_assignedTo ticket' = Some userId
    /\ (forall notes,
          su_resolution req = Some notes -> notes <> "" ->
          t_resolution ticket' =
          Some {| res_notes := notes;
                  res_proofImageUrl := JS.or_null (su_proofImageUrl req);
                  res_resolvedBy := userId;
                  res_resolvedAt :=
                    clock (oracle w) (S (ticks (oracle w))) |})
    /\ (JS.truthy (su_resolution req) = false ->
        t_resolution ticket' = t_resolution ticket)
    /\ (t_id ticket', t_userId ticket', t_category ticket',
        t_description ticket', t_location ticket', t_imageUrl ticket',
        t_createdAt ticket', t_upvotes ticket')
       = (t_id ticket, t_userId ticket, t_category ticket,
          t_description ticket, t_location ticket, t_imageUrl ticket,
          t_createdAt ticket, t_upvotes ticket).
Proof.
  intros Hauth Hprofile Hrole Hticket out. subst out.
  rewrite (updateStatus_run user userId ticketId req profile ticket w
             Hauth Hprofile Hrole Hticket).
  cbn [fst snd]. exists (updated userId req ticket (oracle w)).
  split; [reflexivity|]. split.
  { destruct (kv w !! user_profile_key (t_userId ticket)); cbn [kv].
    - destruct (String.eqb (su_status req) "completed"
                && JS.truthy (su_proofImageUrl req)); cbn [kv];
        rewrite ?lookup_insert_ne by auto with keys; apply lookup_insert_eq.
    - apply lookup_insert_eq. }
  split; [reflexivity|]. split; [reflexivity|]. split; [reflexivity|].
  split.
  { intros notes Hnotes Hne. cbn [updated t_resolution]. rewrite Hnotes.
    destruct notes; [congruence|]. reflexivity. }
  split; [|reflexivity].
  intros Hfalsy. cbn [updated t_resolution]. rewrite Hfalsy. reflexivity.
Qed.

(** A sample run of C5: notes attached to a status that is not
    completed. *)
Lemma updateStatus_success_witness :
  exists ticket',
    (run (updateStatus (Some "off1") "TKT1" Sample.noted) Sample.reported).1
    = json (BTicket ticket' "Ticket updated successfully") 200
    /\ t_status ticket' = "in-progress"
    /\ t_resolution ticket' =
         Some {| res_notes := "crew sent"; res_proofImageUrl := None;
                 res_resolvedBy := "off1";
                 res_resolvedAt := 1700000000001 |}.
Proof.
  destruct (updateStatus_success (Some "off1") "off1" "TKT1" Sample.noted
              (Sample.officer "off1") Sample.pothole Sample.reported
              eq_refl eq_refl eq_refl eq_refl)
    as (ticket' & H1 & _ & H3 & _ & _ & H6 & _).
  exists ticket'. split; [exact H1|]. split; [exact H3|].
  apply (H6 "crew sent"); [reflexivity | discriminate].
Defined.

(** C6, as the code has it. The entries are sent only when the
    reporter has a stored profile. Then a status update puts a
    [ticket_update] entry on the reporter's feed and, when the status is
    completed and a proof image is given (a non-empty string), a
    [resolution] entry built after it and placed before it, the feed
    being newest first; otherwise the [ticket_update] entry alone. When
    the reporter has no stored profile the feed is left as it was. No
    other feed changes. *)
Theorem updateStatus_notifications (user : option string)
    (userId ticketId : string) (req : StatusUpdate) (profile : Profile)
    (ticket : Ticket) (w : World) :
  authenticated user = Some userId ->
  kv w !! user_profile_key userId = Some (VProfile profile) ->
  p_role profile = Some "authority" ->
  kv w !! ticket_key ticketId = Some (VTicket ticket) ->
  let out := run (updateStatus user ticketId req) w in
  let reporter := t_userId ticket in
  let o1 := after_update req (oracle w) in
  let n_upd :=
    new_notification o1 "ticket_update" "Ticket Status Updated"
      (status_message ticketId (su_status req)) (Some ticketId) in
  let n_res :=
    new_notification (elapse o1) "resolution" "Issue Resolved"
      (resolution_message ticketId) (Some ticketId) in
  status out.1 = 200%Z
  /\ (is_Some (kv w !! user_profile_key reporter) ->
      (su_status req = "completed" ->
       JS.truthy (su_proofImageUrl req) = true ->
       feed (kv out.2) reporter
       = take 50 (n_res :: n_upd :: feed (kv w) reporter))
      /\ (su_status req <> "completed"
          \/ JS.truthy (su_proofImageUrl req) = false ->
          feed (kv out.2) reporter
          = take 50 (n_upd :: feed (kv w) reporter)))
  /\ (kv w !! user_profile_key reporter = None ->
      feed (kv out.2) reporter = feed (kv w) reporter)
  /\ (forall other, other <> reporter ->
        feed (kv out.2) other = feed (kv w) other).
Proof.
  intros Hauth Hprofile Hrole Hticket out reporter o1 n_upd n_res.
  subst out.
  rewrite (updateStatus_run user userId ticketId req profile ticket w
             Hauth Hprofile Hrole Hticket).
  cbn [fst snd]. fold reporter o1 n_upd n_res.
  split; [reflexivity|].
  assert (Hother : forall u k v m,
            u <> reporter ->
            feed (<[notifications_key reporter := v]> m) u = feed m u
            /\ feed (<[ticket_key k := v]> m) u = feed m u).
  { intros u k v m Hu. split; apply feed_insert_other; auto with keys.
    intros H. apply notifications_key_inj in H. congruence. }
  destruct (kv w !! user_profile_key reporter) as [owner|].
  - split.
    { intros _. split.
      - intros Hdone Hproof. rewrite Hdone, Hproof.
        change (String.eqb "completed" "completed") with true.
        cbn [andb kv]. rewrite feed_insert_same.
        apply (take_app_take [n_res]).
      - intros Hnot.
        assert (E : String.eqb (su_status req) "completed"
                    && JS.truthy (su_proofImageUrl req) = false).
        { destruct Hnot as [Hnot|Hnot].
          - apply String.eqb_neq in Hnot. rewrite Hnot. reflexivity.
          - rewrite Hnot. apply andb_false_r. }
        rewrite E. cbn [kv]. apply feed_insert_same. }
    split; [discriminate|].
    intros other Hother'.
    destruct (String.eqb (su_status req) "completed"
              && JS.truthy (su_proofImageUrl req)); cbn [kv];
      repeat rewrite (proj1 (Hother other ticketId _ _ Hother'));
      apply feed_insert_other; auto with keys.
  - cbn [kv]. split; [intros [? ?]; discriminate|].
    split; intros; apply feed_insert_other; auto with keys.
Qed.

(** A sample run of C6: the officer completes bob's ticket with a proof
    image; bob has a profile. *)
Lemma updateStatus_notifications_witness :
  n_type <$> feed (kv (run (updateStatus (Some "off1") "TKT1" Sample.fixed)
                         Sample.reported).2) "bob"
  = ["resolution"; "ticket_update"].
Proof.
  destruct (updateStatus_notifications (Some "off1") "off1" "TKT1"
              Sample.fixed (Sample.officer "off1") Sample.pothole
              Sample.reported eq_refl eq_refl eq_refl eq_refl)
    as (_ & H & _).
  assert (Hp : is_Some (kv Sample.reported !! user_profile_key "bob"))
    by (eexists; reflexivity).
  destruct (H Hp) as [H1 _].
  change (t_userId Sample.pothole) with "bob" in H1.
  rewrite H1 by reflexivity. reflexivity.
Defined.

(** C6 as stated fails: the update to completed with a proof image
    succeeds, yet the feed of a reporter without a stored profile holds
    neither entry. *)
Lemma updateStatus_unregistered_reporter_not_notified :
  let out :=
    run (updateStatus (Some "off1") "TKT1" Sample.fixed)
        Sample.unregistered in
  status out.1 = 200%Z
  /\ su_status Sample.fixed = "completed"
  /\ JS.truthy (su_proofImageUrl Sample.fixed) = true
  /\ kv Sample.unregistered !! ticket_key "TKT1"
     = Some (VTicket Sample.pothole)
  /\ t_userId Sample.pothole = "bob"
  /\ feed (kv out.2) "bob" = [].
Proof. cbv zeta. repeat split; vm_compute; reflexivity. Qed.

(** ** Nearby search *)

Lemma insert_by_distance_perm x l :
  Permutation (insert_by_distance x l) (x :: l).
Proof.
  induction l as [|y l IH]; cbn [insert_by_distance]; [reflexivity|].
  destruct (Rle_dec x.2 y.2); [reflexivity|].
  rewrite IH. apply perm_swap.
Qed.

Lemma sort_by_distance_perm l : Permutation (sort_by_distance l) l.
Proof.
  induction l as [|x l IH]; cbn; [reflexivity|].
  rewrite insert_by_distance_perm. apply perm_skip, IH.
Qed.



Lemma truthy_number_Some o :
  JS.truthy_number o = true <-> exists x, o = Some x /\ x <> 0%R.
Proof.
  unfold JS.truthy_number. destruct o as [x|].
  - destruct (Req_dec_T x 0) as [E|E]; split.
    + discriminate.
    + intros (y & [= <-] & Hy). contradiction.
    + intros _. exists x. split; [reflexivity | exact E].
    + reflexivity.
  - split; [discriminate | intros (x & H & _); discriminate].
Qed.

Lemma coordinates_Some ticket tlat tlng :
  coordinates ticket = Some (tlat, tlng) <->
  exists location,
    t_location ticket = Some location
    /\ loc_lat location = Some tlat /\ loc_lng location = Some tlng
    /\ tlat <> 0%R /\ tlng <> 0%R.
Proof.
  unfold coordinates. destruct (t_location ticket) as [location|].
  - destruct (JS.truthy_number (loc_lat location)) eqn:Elat;
      destruct (JS.truthy_number (loc_lng location)) eqn:Elng; cbn [andb].
    + apply truthy_number_Some in Elat as (x & Hx & Hx0).
      apply truthy_number_Some in Elng as (y & Hy & Hy0).
      rewrite Hx, Hy. split.
      * intros [= <- <-]. exists location. repeat split; assumption.
      * intros (l & Hl & H1 & H2 & _). congruence.
    + split; [discriminate|].
      intros (l & Hl & H1 & H2 & H3 & H4).
      assert (l = location) by congruence. subst l.
      assert (JS.truthy_number (loc_lng location) = true)
        by (apply truthy_number_Some; eauto). congruence.
    + split; [discriminate|].
      intros (l & Hl & H1 & H2 & H3 & H4).
      assert (l = location) by congruence. subst l.
      assert (JS.truthy_number (loc_lat location) = true)
        by (apply truthy_number_Some; eauto). congruence.
    + split; [discriminate|].
      intros (l & Hl & H1 & H2 & H3 & H4).
      assert (l = location) by congruence. subst l.
      assert (JS.truthy_number (loc_lat location) = true)
        by (apply truthy_number_Some; eauto). congruence.
  - split; [discriminate | intros (l & H & _); discriminate].
Qed.

Lemma within_Some lat lng radius ticket entry :
  within lat lng radius ticket = Some entry <->
  exists tlat tlng,
    coordinates ticket = Some (tlat, tlng)
    /\ entry = (ticket, calculateDistance lat lng tlat tlng)
    /\ (calculateDistance lat lng tlat tlng <= radius)%R.
Proof.
  unfold within. destruct (coordinates ticket) as [[tlat tlng]|].
  - destruct (Rle_dec (calculateDistance lat lng tlat tlng) radius); split.
    + intros [= <-]. eauto.
    + intros (a & b & [= <- <-] & -> & _). reflexivity.
    + discriminate.
    + intros (a & b & [= <- <-] & _ & H). contradiction.
  - split; [discriminate | intros (a & b & H & _); discriminate].
Qed.

Lemma elem_of_stored_tickets m ticket :
  ticket ∈ stored_tickets m <->
  exists key, String.prefix "ticket_" key = true
              /\ m !! key = Some (VTicket ticket).
Proof.
  unfold stored_tickets. rewrite list_elem_of_omap. split.
  - intros (v & Hv & Ht). destruct v; try discriminate.
    injection Ht as ->. apply elem_of_scan in Hv. exact Hv.
  - intros (key & Hk & Hv). exists (VTicket ticket).
    split; [|reflexivity]. apply elem_of_scan. eauto.
Qed.

Lemma elem_of_nearby tickets lat lng radius ticket distance :
  (ticket, distance) ∈ nearby tickets lat lng radius <->
  ticket ∈ tickets
  /\ exists tlat tlng,
       coordinates ticket = Some (tlat, tlng)
       /\ distance = calculateDistance lat lng tlat tlng
       /\ (distance <= radius)%R.
Proof.
  unfold nearby. rewrite sort_by_distance_perm, list_elem_of_omap. split.
  - intros (t & Ht & Hw). apply within_Some in Hw
      as (tlat & tlng & Hc & [= <- ->] & Hle). eauto 10.
  - intros (Ht & tlat & tlng & Hc & -> & Hle). exists ticket.
    split; [exact Ht|]. apply within_Some. eauto 10.
Qed.

Lemma calculateDistance_same lat lng : calculateDistance lat lng lat lng = 0%R.
Proof.
  unfold calculateDistance.
  replace ((lat - lat) * PI / 180 / 2)%R with 0%R by lra.
  replace ((lng - lng) * PI / 180 / 2)%R with 0%R by lra.
  rewrite sin_0.
  match goal with |- context [sqrt ?a] =>
    replace a with 0%R by ring end.
  replace (1 - 0)%R with 1%R by lra.
  rewrite sqrt_0, sqrt_1. unfold JS.atan2.
  destruct (Rlt_dec 0 1) as [_|H]; [|exfalso; apply H; lra].
  replace (0 / 1)%R with 0%R by lra. rewrite atan_0. lra.
Qed.






(** C10. A ticket without a location, or whose latitude or longitude
    is missing or 0, is never in the answer of the nearby search,
    whatever the query point and the radius. *)
Theorem nearbyTickets_skips_falsy_coordinates (q : NearbyQuery) (w : World)
    (ticket : Ticket) (distance : R) :
  (t_location ticket = None
   \/ exists location,
        t_location ticket = Some location
        /\ (loc_lat location = None \/ loc_lat location = Some 0%R
            \/ loc_lng location = None \/ loc_lng location = Some 0%R)) ->
  exists result,
    run (nearbyTickets q) w = (json (BNearby result) 200, w)
    /\ (ticket, distance) ∉ result.
Proof.
  intros Hfalsy. eexists. split; [reflexivity|].
  rewrite elem_of_nearby. intros (_ & tlat & tlng & Hc & _).
  apply coordinates_Some in Hc as (location & H1 & H2 & H3 & H4 & H5).
  destruct Hfalsy as [Hnone|(l & Hl & Hzero)]; [congruence|].
  assert (l = location) by congruence. subst l.
  destruct Hzero as [H|[H|[H|H]]]; congruence.
Qed.

(** A sample run of C10: the ticket on the equator, searched from its
    own position. *)
Lemma nearbyTickets_skips_falsy_coordinates_witness :
  exists result,
    run (nearbyTickets Sample.at_buoy) Sample.equator
    = (json (BNearby result) 200, Sample.equator)
    /\ (Sample.buoy, 0%R) ∉ result.
Proof.
  apply (nearbyTickets_skips_falsy_coordinates Sample.at_buoy
           Sample.equator Sample.buoy 0%R).
  right. exists Sample.on_equator. split; [reflexivity|].
  right. left. reflexivity.
Defined.

(** ** Heatmap *)









(** ** Worked examples *)

(** Two different users upvote bob's ticket once each, the count going
    from 1 to 3; a further call by the first of them is refused and the
    count stays. *)
Example upvote_scenario :
  let w1 := (run (upvote (Some "carol") "TKT1") Sample.voted).2 in
  let w2 := (run (upvote (Some "dave") "TKT1") w1).2 in
  let again := run (upvote (Some "carol") "TKT1") w2 in
  t_upvotes <$> (kv w2 !! ticket_key "TKT1" ≫= as_ticket) = Some 3%Z
  /\ status again.1 = 400%Z
  /\ kv again.2 = kv w2.
Proof. cbv zeta. repeat split; vm_compute; reflexivity. Qed.

(** Entries at equal distance keep the order of the scan. *)
Example sort_by_distance_stable (a b c : Ticket) :
  sort_by_distance [(a, 2%R); (b, 1%R); (c, 2%R)]
  = [(b, 1%R); (a, 2%R); (c, 2%R)].
Proof.
  unfold sort_by_distance. cbn [foldr insert_by_distance snd].
  repeat (destruct (Rle_dec _ _); try lra; cbn [insert_by_distance snd]).
  reflexivity.
Qed.

(** A search from the position of bob's ticket finds it at distance 0. *)
Example nearbyTickets_finds_delhi :
  (run (nearbyTickets {| q_lat := Some 28.6%R; q_lng := Some 77.2%R;
                         q_radius := None |}) Sample.reported).1
  = json (BNearby [(Sample.pothole, 0%R)]) 200.
Proof.
  unfold nearbyTickets. run_steps.
  assert (Hscan : Kv.scan "ticket_" (kv Sample.reported)
                  = [VTicket Sample.pothole]) by (vm_compute; reflexivity).
  rewrite Hscan. cbn [omap list_omap as_ticket default q_lat q_lng q_radius].
  unfold nearby. cbn [omap list_omap].
  assert (Hc : coordinates Sample.pothole = Some (28.6%R, 77.2%R)).
  { apply coordinates_Some. exists Sample.delhi.
    repeat split; try reflexivity; lra. }
  unfold within. rewrite Hc, calculateDistance_same.
  destruct (Rle_dec 0 5) as [_|H]; [reflexivity | exfalso; apply H; lra].
Qed.

(** The instant 1700000000000 is 14 November 2023 in UTC; a week and a
    month before it lie 7 and 31 days back. *)
Example utc_calendar :
  Utc.civil_from_days (1700000000000 / Utc.msPerDay) = (2023, 11, 14)%Z
  /\ threshold_of Utc.date "week" 1700000000000 1700000000000
     = (1700000000000 - 7 * Utc.msPerDay)%Z
  /\ threshold_of Utc.date "month" 1700000000000 1700000000000
     = (1700000000000 - 31 * Utc.msPerDay)%Z.
Proof. repeat split. Qed.

(** * Further properties *)

(** ** Sorting with a comparator *)

Lemma insert_with_perm {A} (compare : A -> A -> Z) x l :
  insert_with compare x l ≡ₚ x :: l.
Proof.
  induction l as [|y l IH]; cbn [insert_with]; [reflexivity|].
  destruct (compare x y <=? 0)%Z; [reflexivity|].
  rewrite IH. apply perm_swap.
Qed.

Lemma sort_with_perm {A} (compare : A -> A -> Z) l :
  sort_with compare l ≡ₚ l.
Proof.
  induction l as [|x l IH]; cbn; [reflexivity|].
  rewrite insert_with_perm. apply perm_skip, IH.
Qed.

Lemma insert_with_descending {A} (key : A -> Z) x l :
  StronglySorted (above key) l ->
  StronglySorted (above key) (insert_with (descending key) x l).
Proof.
  induction 1 as [|y l Hsorted IH Hall]; cbn [insert_with].
  - repeat constructor.
  - unfold descending at 1.
    destruct (Z.leb_spec (key y - key x) 0) as [Hle|Hgt].
    + constructor; [constructor; assumption|].
      constructor; [unfold above; lia|].
      eapply Forall_impl; [exact Hall|]. unfold above. intros z Hz. lia.
    + constructor; [exact IH|].
      rewrite insert_with_perm. constructor; [unfold above; lia|exact Hall].
Qed.

Lemma sort_with_descending {A} (key : A -> Z) l :
  StronglySorted (above key) (sort_with (descending key) l).
Proof.
  induction l as [|x l IH]; cbn; [constructor|].
  apply insert_with_descending, IH.
Qed.

Lemma sort_with_descending_id {A} (key : A -> Z) l :
  StronglySorted (above key) l -> sort_with (descending key) l = l.
Proof.
  induction 1 as [|x l Hsorted IH Hall]; cbn [sort_with foldr];
    [reflexivity|].
  change (foldr (insert_with (descending key)) [] l)
    with (sort_with (descending key) l).
  rewrite IH. destruct l as [|y l]; [reflexivity|].
  cbn [insert_with]. unfold descending at 1.
  apply Forall_cons in Hall as [Hy _]. unfold above in Hy.
  destruct (Z.leb_spec (key y - key x) 0); [reflexivity|lia].
Qed.

(** ** My tickets *)

Lemma fetch_tickets_run ids w :
  run (fetch_tickets ids) w = (omap (ticket_of (kv w)) ids, w).
Proof.
  induction ids as [|id ids IH]; [reflexivity|].
  cbn [fetch_tickets]. run_steps. rewrite IH. cbn [fst snd omap list_omap].
  unfold ticket_of.
  destruct (kv w !! ticket_key id ≫= as_ticket); reflexivity.
Qed.

Lemma myTickets_run user userId w :
  authenticated user = Some userId ->
  run (myTickets user) w =
  (reply (PTickets (sort_with newest_first
                      (omap (ticket_of (kv w)) (listed (kv w) userId))))
         200, w).
Proof.
  intros Hauth. unfold myTickets. rewrite Hauth. run_steps.
  rewrite fetch_tickets_run. reflexivity.
Qed.

(** X1. The listing of a caller's own tickets answers the tickets stored
    under the ids of the caller's ticket-id list, an id without a stored
    ticket being skipped, ordered by creation time, newest first; when
    they are stored in that order already the answer keeps them as they
    are. Nothing is written. *)
Theorem myTickets_result (user : option string) (userId : string) (w : World) :
  authenticated user = Some userId ->
  let mine := omap (ticket_of (kv w)) (listed (kv w) userId) in
  exists result,
    run (myTickets user) w = (reply (PTickets result) 200, w)
    /\ result ≡ₚ mine
    /\ StronglySorted (above t_createdAt) result
    /\ (StronglySorted (above t_createdAt) mine -> result = mine).
Proof.
  intros Hauth mine. eexists. split; [apply myTickets_run, Hauth|].
  fold mine. split; [apply sort_with_perm|].
  split; [apply (sort_with_descending t_createdAt)|].
  apply (sort_with_descending_id t_createdAt).
Qed.

(** A sample run of X1: bob's list names TKT1, a missing TKT9 and
    TKT2. *)
Lemma myTickets_result_witness :
  exists result,
    run (myTickets (Some "bob")) Cases.archive
    = (reply (PTickets result) 200, Cases.archive)
    /\ result ≡ₚ [Cases.old; Cases.recent]
    /\ StronglySorted (above t_createdAt) result.
Proof.
  destruct (myTickets_result (Some "bob") "bob" Cases.archive eq_refl)
    as (result & Hrun & Hperm & Hsorted & _).
  exists result. split; [exact Hrun|]. split; [|exact Hsorted].
  rewrite Hperm. vm_compute. reflexivity.
Defined.

Example myTickets_sample :
  (run (myTickets (Some "bob")) Cases.archive).1
  = reply (PTickets [Cases.recent; Cases.old]) 200.
Proof. vm_compute. reflexivity. Qed.

(** X2. After a successful submission the reporter's own listing holds
    the new ticket, together with every ticket it held before under
    another id. *)
Theorem submitTicket_then_myTickets (user : option string) (userId : string)
    (req : Submission) (category : string) (location : Location) (w : World) :
  authenticated user = Some userId ->
  s_category req = Some category -> JS.truthy_string category = true ->
  s_location req = Some location ->
  let ticket := submitted userId req category location (oracle w) in
  let after := (run (submitTicket user req) w).2 in
  exists result,
    run (myTickets user) after = (reply (PTickets result) 200, after)
    /\ ticket ∈ result
    /\ (forall id former,
          id ∈ listed (kv w) userId -> id <> t_id ticket ->
          ticket_of (kv w) id = Some former -> former ∈ result).
Proof.
  intros Hauth Hcat Htruthy Hloc ticket after.
  pose proof (submitTicket_run user userId req category location w Hauth
                (required_fields_Some _ _ _ Hcat Htruthy Hloc)) as Hrun.
  cbv zeta in Hrun. fold ticket in Hrun.
  assert (Hkv : forall key, (forall u, key <> notifications_key u) ->
            kv after !! key =
            <[user_tickets_key userId :=
                VTicketIds (listed (kv w) userId ++ [t_id ticket])]>
              (<[ticket_key (t_id ticket) := VTicket ticket]> (kv w)) !! key).
  { intros key Hkey. subst after. rewrite Hrun. cbn [snd].
    rewrite broadcast_frame by exact Hkey. reflexivity. }
  assert (Hlisted : listed (kv after) userId
                    = listed (kv w) userId ++ [t_id ticket]).
  { unfold listed at 1. rewrite Hkv by auto with keys.
    rewrite lookup_insert_eq. reflexivity. }
  assert (Hof : forall id, ticket_of (kv after) id
                = if decide (id = t_id ticket) then Some ticket
                  else ticket_of (kv w) id).
  { intros id. unfold ticket_of. rewrite Hkv by auto with keys.
    rewrite lookup_insert_ne by auto with keys.
    destruct (decide (id = t_id ticket)) as [->|Hne].
    - rewrite lookup_insert_eq. reflexivity.
    - rewrite lookup_insert_ne; [reflexivity|].
      intros H. apply ticket_key_inj in H. congruence. }
  eexists. split; [apply myTickets_run, Hauth|].
  split.
  - rewrite sort_with_perm, list_elem_of_omap. exists (t_id ticket).
    split; [rewrite Hlisted; apply elem_of_app; right; constructor|].
    rewrite Hof. rewrite decide_True; reflexivity.
  - intros id former Hin Hne Hformer.
    rewrite sort_with_perm, list_elem_of_omap. exists id.
    split; [rewrite Hlisted; apply elem_of_app; left; exact Hin|].
    rewrite Hof, decide_False by exact Hne. exact Hformer.
Qed.

Lemma submitTicket_then_myTickets_witness :
  exists result,
    run (myTickets (Some "bob"))
        (run (submitTicket (Some "bob") Sample.pothole_report)
             Cases.archive).2
    = (reply (PTickets result) 200,
       (run (submitTicket (Some "bob") Sample.pothole_report)
            Cases.archive).2)
    /\ submitted "bob" Sample.pothole_report "pothole" Sample.delhi
         Sample.oracle0 ∈ result.
Proof.
  destruct (submitTicket_then_myTickets (Some "bob") "bob"
              Sample.pothole_report "pothole" Sample.delhi Cases.archive
              eq_refl eq_refl eq_refl eq_refl)
    as (result & Hrun & Hin & _).
  exists result. split; [exact Hrun | exact Hin].
Defined.

(** ** All tickets *)

Lemma selective_Some o s :
  selective o = Some s <-> o = Some s /\ s <> "" /\ s <> "all".
Proof.
  unfold selective. destruct o as [x|]; [|split; [discriminate|intros [H _]; discriminate]].
  destruct x as [|c x].
  - cbn. split; [discriminate|]. intros ([= <-] & H & _). congruence.
  - cbn [JS.truthy_string andb].
    destruct (String.eqb_spec (String c x) "all") as [E|E]; cbn [negb]; split.
    + discriminate.
    + intros ([= <-] & _ & H). congruence.
    + intros [= <-]. repeat split; [discriminate|exact E].
    + intros ([= <-] & _). reflexivity.
Qed.

Lemma selective_None o :
  selective o = None -> forall s, o = Some s -> s <> "" -> s <> "all" -> False.
Proof.
  intros Hnone s Ho H1 H2.
  assert (selective o = Some s) by (apply selective_Some; auto). congruence.
Qed.

Lemma elem_of_filter_all q tickets ticket :
  ticket ∈ filter_all q tickets <-> ticket ∈ tickets /\ passes q ticket.
Proof.
  unfold filter_all, passes.
  destruct (selective (aq_ward q)) as [ward|] eqn:Eward;
    destruct (selective (aq_status q)) as [status|] eqn:Estatus;
    destruct (aq_dateFrom q) as [fromDate|];
    destruct (aq_dateTo q) as [toDate|];
    rewrite ?list_elem_of_filter;
    try apply selective_Some in Eward as (Eward & Hw1 & Hw2);
    try apply selective_Some in Estatus as (Estatus & Hs1 & Hs2);
    try pose proof (selective_None _ Eward) as Hnoward;
    try pose proof (selective_None _ Estatus) as Hnostatus;
    (split;
     [ intros H; repeat (destruct H as [? H] || destruct H as [H ?]);
       (split; [assumption|]);
       repeat split; intros; try congruence; try (exfalso; eauto; fail)
     | intros (Hin & Hward & Hstatus & Hfrom & Hto);
       repeat split; eauto ]).
Qed.

Lemma allTickets_run localeCompare user userId q w :
  authenticated user = Some userId ->
  run (allTickets localeCompare user q) w =
  (reply (PTickets
            (sort_with
               (compare_tickets localeCompare
                  (JS.or_string (aq_sortBy q) "date"))
               (filter_all q (stored_tickets (kv w))))) 200, w).
Proof. intros Hauth. unfold allTickets. rewrite Hauth. reflexivity. Qed.

Lemma sort_with_ext {A} (c1 c2 : A -> A -> Z) l :
  (forall a b, c1 a b = c2 a b) -> sort_with c1 l = sort_with c2 l.
Proof.
  intros Hext. induction l as [|x l IH]; [reflexivity|].
  cbn [sort_with foldr]. fold (sort_with c1 l) (sort_with c2 l).
  rewrite IH. generalize (sort_with c2 l) as s.
  induction s as [|y s IHs]; [reflexivity|].
  cbn [insert_with]. rewrite Hext, IHs. reflexivity.
Qed.

(** X3. The listing of all tickets answers, for any authenticated
    caller, exactly the stored tickets that pass every given filter:
    ward and status by equality (an empty value or the word all filters
    nothing), creation time within the two bounds, each bound included.
    Nothing is written. *)
Theorem allTickets_result (localeCompare : string -> string -> Z)
    (user : option string) (userId : string) (q : AllQuery) (w : World) :
  authenticated user = Some userId ->
  exists result,
    run (allTickets localeCompare user q) w
    = (reply (PTickets result) 200, w)
    /\ result ≡ₚ filter_all q (stored_tickets (kv w))
    /\ (forall ticket,
          ticket ∈ result <->
          ticket ∈ stored_tickets (kv w) /\ passes q ticket).
Proof.
  intros Hauth. eexists.
  split; [exact (allTickets_run _ _ _ _ _ Hauth)|].
  split; [apply sort_with_perm|].
  intros ticket. rewrite sort_with_perm. apply elem_of_filter_all.
Qed.

Lemma allTickets_result_witness :
  exists result,
    run (allTickets Cases.code_unit_order (Some "off1") Cases.ward3_by_votes)
        Cases.archive
    = (reply (PTickets result) 200, Cases.archive)
    /\ result ≡ₚ [Cases.old; Cases.other].
Proof.
  destruct (allTickets_result Cases.code_unit_order (Some "off1") "off1"
              Cases.ward3_by_votes Cases.archive eq_refl)
    as (result & Hrun & Hperm & _).
  exists result. split; [exact Hrun|].
  rewrite Hperm.
  assert (E : filter_all Cases.ward3_by_votes
                (stored_tickets (kv Cases.archive))
              = [Cases.other; Cases.old]) by (vm_compute; reflexivity).
  rewrite E. apply perm_swap.
Defined.

(** X4. Sorted by upvotes, the listing of all tickets is in descending
    order of upvotes, and sorting by criticality gives the same
    answer. *)
Theorem allTickets_by_upvotes (localeCompare : string -> string -> Z)
    (user : option string) (userId : string) (q q' : AllQuery) (w : World) :
  authenticated user = Some userId ->
  aq_sortBy q = Some "upvotes" ->
  aq_sortBy q' = Some "criticality" ->
  (aq_ward q', aq_status q', aq_dateFrom q', aq_dateTo q')
  = (aq_ward q, aq_status q, aq_dateFrom q, aq_dateTo q) ->
  exists result,
    run (allTickets localeCompare user q) w
    = (reply (PTickets result) 200, w)
    /\ run (allTickets localeCompare user q') w
       = (reply (PTickets result) 200, w)
    /\ StronglySorted (above t_upvotes) result.
Proof.
  intros Hauth Hsort Hsort' Hsame.
  exists (sort_with (descending t_upvotes)
            (filter_all q (stored_tickets (kv w)))).
  assert (Hfilter : forall l, filter_all q' l = filter_all q l).
  { intros l. unfold filter_all. injection Hsame as -> -> -> ->.
    reflexivity. }
  rewrite !(allTickets_run _ _ _ _ _ Hauth), Hsort, Hsort', Hfilter.
  cbn [JS.or_string JS.truthy_string].
  split; [|split].
  - do 3 f_equal. apply sort_with_ext. intros a b.
    unfold compare_tickets, descending. cbn. rewrite !or_zero_id.
    reflexivity.
  - do 3 f_equal. apply sort_with_ext. intros a b.
    unfold compare_tickets, descending. cbn. rewrite !or_zero_id.
    reflexivity.
  - apply sort_with_descending.
Qed.

Lemma allTickets_by_upvotes_witness :
  exists result,
    run (allTickets Cases.code_unit_order (Some "off1") Cases.ward3_by_votes)
        Cases.archive
    = (reply (PTickets result) 200, Cases.archive)
    /\ StronglySorted (above t_upvotes) result.
Proof.
  destruct (allTickets_by_upvotes Cases.code_unit_order (Some "off1") "off1"
              Cases.ward3_by_votes
              {| aq_ward := Some "Ward 3"; aq_status := Some "all";
                 aq_dateFrom := Some 500%Z; aq_dateTo := None;
                 aq_sortBy := Some "criticality" |}
              Cases.archive eq_refl eq_refl eq_refl eq_refl)
    as (result & Hrun & _ & Hsorted).
  exists result. split; [exact Hrun | exact Hsorted].
Defined.

(** X5. Without a sort key, or with one that is empty or is none of
    upvotes, criticality, status and ward, the listing of all tickets is
    ordered by creation time, newest first. *)
Theorem allTickets_by_date (localeCompare : string -> string -> Z)
    (user : option string) (userId : string) (q : AllQuery) (w : World) :
  authenticated user = Some userId ->
  let sortBy := JS.or_string (aq_sortBy q) "date" in
  sortBy <> "upvotes" -> sortBy <> "criticality" ->
  sortBy <> "status" -> sortBy <> "ward" ->
  exists result,
    run (allTickets localeCompare user q) w
    = (reply (PTickets result) 200, w)
    /\ StronglySorted (above t_createdAt) result.
Proof.
  intros Hauth sortBy H1 H2 H3 H4.
  exists (sort_with (descending t_createdAt)
            (filter_all q (stored_tickets (kv w)))).
  rewrite (allTickets_run _ _ _ _ _ Hauth). fold sortBy.
  split; [|apply sort_with_descending].
  do 3 f_equal. apply sort_with_ext. intros a b.
  unfold compare_tickets, descending.
  apply String.eqb_neq in H1, H2, H3, H4. rewrite H1, H2, H3, H4.
  reflexivity.
Qed.

Lemma allTickets_by_date_witness :
  exists result,
    run (allTickets Cases.code_unit_order (Some "off1") Cases.everything)
        Cases.archive
    = (reply (PTickets result) 200, Cases.archive)
    /\ StronglySorted (above t_createdAt) result.
Proof.
  apply (allTickets_by_date Cases.code_unit_order (Some "off1") "off1"
           Cases.everything Cases.archive eq_refl); discriminate.
Defined.

Example allTickets_sample :
  (run (allTickets Cases.code_unit_order (Some "off1") Cases.ward3_by_votes)
       Cases.archive).1
  = reply (PTickets [Cases.other; Cases.old]) 200
  /\ (run (allTickets Cases.code_unit_order (Some "off1") Cases.everything)
          Cases.archive).1
     = reply (PTickets [Cases.other; Cases.recent; Cases.old]) 200.
Proof. split; vm_compute; reflexivity. Qed.

(** ** Feed handlers *)

Lemma listNotifications_run user userId w :
  authenticated user = Some userId ->
  run (listNotifications user) w =
  (reply (PNotifications (sort_with latest_first (feed (kv w) userId))) 200,
   w).
Proof. intros Hauth. unfold listNotifications. rewrite Hauth. reflexivity. Qed.

(** X6. The feed listing answers the entries of the caller's stored
    feed ordered by creation time, newest first; a feed stored in that
    order is answered as it is; a caller without a feed gets the empty
    list. The sorted order is not written back: the store is as
    before. *)
Theorem listNotifications_result (user : option string) (userId : string)
    (w : World) :
  authenticated user = Some userId ->
  exists result,
    run (listNotifications user) w = (reply (PNotifications result) 200, w)
    /\ result ≡ₚ feed (kv w) userId
    /\ StronglySorted (above n_createdAt) result
    /\ (StronglySorted (above n_createdAt) (feed (kv w) userId) ->
        result = feed (kv w) userId)
    /\ (kv w !! notifications_key userId = None -> result = []).
Proof.
  intros Hauth. eexists. split; [apply listNotifications_run, Hauth|].
  split; [apply sort_with_perm|].
  split; [apply (sort_with_descending n_createdAt)|].
  split; [apply (sort_with_descending_id n_createdAt)|].
  intros Hnone. unfold feed. rewrite Hnone. reflexivity.
Qed.

Lemma listNotifications_result_witness :
  exists result,
    run (listNotifications (Some "bob")) Cases.inbox
    = (reply (PNotifications result) 200, Cases.inbox)
    /\ result = feed (kv Cases.inbox) "bob".
Proof.
  destruct (listNotifications_result (Some "bob") "bob" Cases.inbox eq_refl)
    as (result & Hrun & _ & _ & Hid & _).
  exists result. split; [exact Hrun|]. apply Hid.
  vm_compute. repeat constructor; discriminate.
Defined.

Lemma markRead_run user userId notificationId w :
  authenticated user = Some userId ->
  run (markRead user notificationId) w =
  (reply (PMessage "Notification marked as read") 200,
   {| kv := <[notifications_key userId :=
                VNotifications (marked notificationId <$> feed (kv w) userId)]>
              (kv w);
      oracle := oracle w |}).
Proof. intros Hauth. unfold markRead. rewrite Hauth. reflexivity. Qed.

Lemma marked_flagged notificationId n :
  flagged (n_read n || String.eqb (n_id n) notificationId) n
          (marked notificationId n).
Proof.
  unfold flagged, marked.
  destruct (String.eqb (n_id n) notificationId), n as [? ? ? ? ? []];
    reflexivity.
Qed.

Lemma marked_twice notificationId n :
  marked notificationId (marked notificationId n) = marked notificationId n.
Proof.
  unfold marked. destruct (String.eqb (n_id n) notificationId) eqn:E;
    cbn [with_read n_id]; rewrite E; reflexivity.
Qed.

(** X7. Marking a notification read answers 200 whether or not the feed
    holds an entry with that id. The caller's feed keeps its length and
    order; every entry keeps its fields, its read flag being set when
    its id is the given one and left as it was otherwise; with no such
    entry the feed is as before. No other feed and no other key of the
    store changes. *)
Theorem markRead_result (user : option string) (userId notificationId : string)
    (w : World) :
  authenticated user = Some userId ->
  let out := run (markRead user notificationId) w in
  let before := feed (kv w) userId in
  let after := feed (kv out.2) userId in
  out.1 = reply (PMessage "Notification marked as read") 200
  /\ Forall2 (fun n n' =>
                flagged (n_read n || String.eqb (n_id n) notificationId) n n')
             before after
  /\ (Forall (fun n => n_id n <> notificationId) before -> after = before)
  /\ (forall key, key <> notifications_key userId ->
        kv out.2 !! key = kv w !! key).
Proof.
  intros Hauth out before after. subst out after.
  rewrite (markRead_run user userId notificationId w Hauth). cbn [fst snd kv].
  rewrite feed_insert_same. fold before.
  split; [reflexivity|]. split; [|split].
  - apply Forall2_fmap_r, Forall_Forall2_diag, Forall_forall.
    intros n _. apply marked_flagged.
  - intros Hnone. rewrite <- (list_fmap_id before) at 2.
    apply Forall_fmap_ext. eapply Forall_impl; [exact Hnone|].
    intros n Hn. unfold marked. apply String.eqb_neq in Hn. rewrite Hn.
    reflexivity.
  - intros key Hkey. apply lookup_insert_ne. congruence.
Qed.

Lemma markRead_result_witness :
  feed (kv (run (markRead (Some "bob") "n3") Cases.inbox).2) "bob"
  = [Cases.note "n3" 3000 true; Cases.note "n2" 2000 true;
     Cases.note "n1" 1000 false]
  /\ feed (kv (run (markRead (Some "bob") "n9") Cases.inbox).2) "bob"
     = feed (kv Cases.inbox) "bob".
Proof.
  split.
  - destruct (markRead_result (Some "bob") "bob" "n3" Cases.inbox eq_refl)
      as (_ & H & _).
    vm_compute in H. vm_compute.
    repeat match goal with
           | H : Forall2 _ _ _ |- _ => inversion H; clear H; subst
           end.
    repeat match goal with H : flagged _ _ _ |- _ => rewrite H; clear H end.
    reflexivity.
  - destruct (markRead_result (Some "bob") "bob" "n9" Cases.inbox eq_refl)
      as (_ & _ & H & _).
    apply H. vm_compute. repeat constructor; discriminate.
Defined.

(** X8. Marking the same notification read a second time changes
    nothing: the store after two calls is the store after one. *)
Theorem markRead_idempotent (user : option string)
    (userId notificationId : string) (w : World) :
  authenticated user = Some userId ->
  let once := run (markRead user notificationId) w in
  run (markRead user notificationId) once.2 = once.
Proof.
  intros Hauth once. subst once.
  rewrite !(markRead_run user userId notificationId _ Hauth).
  cbn [fst snd kv oracle]. rewrite feed_insert_same, insert_insert_eq.
  rewrite <- list_fmap_compose.
  do 4 f_equal. apply list_fmap_ext. intros i n _. apply marked_twice.
Qed.

Lemma markRead_idempotent_witness :
  run (markRead (Some "bob") "n3")
      (run (markRead (Some "bob") "n3") Cases.inbox).2
  = run (markRead (Some "bob") "n3") Cases.inbox.
Proof.
  apply (markRead_idempotent (Some "bob") "bob" "n3" Cases.inbox eq_refl).
Defined.

Lemma markAllRead_run user userId w :
  authenticated user = Some userId ->
  run (markAllRead user) w =
  (reply (PMessage "All notifications marked as read") 200,
   {| kv := <[notifications_key userId :=
                VNotifications (with_read <$> feed (kv w) userId)]> (kv w);
      oracle := oracle w |}).
Proof. intros Hauth. unfold markAllRead. rewrite Hauth. reflexivity. Qed.

Lemma unread_with_read l : unread (with_read <$> l) = [].
Proof.
  unfold unread. induction l as [|n l IH]; [reflexivity|].
  cbn [fmap list_fmap]. rewrite filter_cons_False by (cbn; discriminate).
  exact IH.
Qed.

(** X9. Marking all notifications read leaves the caller's feed with
    the same entries in the same order, each with its read flag set, so
    that no unread entry is left; a second call changes nothing; no
    other feed and no other key of the store changes. *)
Theorem markAllRead_result (user : option string) (userId : string)
    (w : World) :
  authenticated user = Some userId ->
  let out := run (markAllRead user) w in
  let before := feed (kv w) userId in
  let after := feed (kv out.2) userId in
  out.1 = reply (PMessage "All notifications marked as read") 200
  /\ Forall2 (flagged true) before after
  /\ unread after = []
  /\ run (markAllRead user) out.2 = out
  /\ (forall key, key <> notifications_key userId ->
        kv out.2 !! key = kv w !! key).
Proof.
  intros Hauth out before after. subst out after.
  rewrite !(markAllRead_run user userId _ Hauth). cbn [fst snd kv oracle].
  rewrite !feed_insert_same. fold before.
  split; [reflexivity|]. split; [|split; [|split]].
  - apply Forall2_fmap_r, Forall_Forall2_diag, Forall_forall.
    intros n _. reflexivity.
  - apply unread_with_read.
  - rewrite insert_insert_eq, <- list_fmap_compose. reflexivity.
  - intros key Hkey. apply lookup_insert_ne. congruence.
Qed.

Lemma markAllRead_result_witness :
  feed (kv (run (markAllRead (Some "bob")) Cases.inbox).2) "bob"
  = [Cases.note "n3" 3000 true; Cases.note "n2" 2000 true;
     Cases.note "n1" 1000 true].
Proof.
  destruct (markAllRead_result (Some "bob") "bob" Cases.inbox eq_refl)
    as (_ & H & _).
  vm_compute in H. vm_compute.
  repeat match goal with
         | H : Forall2 _ _ _ |- _ => inversion H; clear H; subst
         end.
  repeat match goal with H : flagged _ _ _ |- _ => rewrite H; clear H end.
  reflexivity.
Defined.

Lemma unread_take_with_read n (l : list Notification) :
  unread (take n (with_read <$> l)) = [].
Proof.
  rewrite <- fmap_take. apply unread_with_read.
Qed.

(** X10. After all notifications were marked read, the next
    notification for that user is the only unread entry of the feed, and
    it is the first one. *)
Theorem markAllRead_then_notify (user : option string) (userId : string)
    (c : Call) (w : World) :
  authenticated user = Some userId ->
  let cleared := (run (markAllRead user) w).2 in
  let after := feed (kv (run (notify userId c) cleared).2) userId in
  let fresh :=
    new_notification (oracle w) (c_type c) (c_title c) (c_message c)
      (c_ticketId c) in
  unread after = [fresh] /\ head after = Some fresh.
Proof.
  intros Hauth cleared after fresh. subst cleared after.
  rewrite (markAllRead_run user userId w Hauth). cbn [snd].
  unfold notify. rewrite createNotification_run. cbn [snd kv oracle].
  rewrite !feed_insert_same. fold fresh.
  change (take 50 (fresh :: (with_read <$> feed (kv w) userId)))
    with (fresh :: take 49 (with_read <$> feed (kv w) userId)).
  split; [|reflexivity].
  unfold unread. rewrite filter_cons_True by reflexivity.
  f_equal. apply unread_take_with_read.
Qed.

Lemma markAllRead_then_notify_witness :
  unread (feed (kv (run (notify "bob" Sample.ping)
                        (run (markAllRead (Some "bob")) Cases.inbox).2).2)
               "bob")
  = [new_notification Sample.oracle0 "ticket_update" "Ticket Status Updated"
       "Your ticket #TKT1 has been assigned" (Some "TKT1")].
Proof.
  apply (markAllRead_then_notify (Some "bob") "bob" Sample.ping Cases.inbox
           eq_refl).
Defined.

(** ** Refusals *)

(** X11. A status update is refused without any write: with 401 for a
    caller that is not authenticated; with 403 for a caller whose stored
    profile is missing or has another role than authority, whether or
    not the ticket exists; with 404 for an authority when no ticket is
    stored under the id. *)
Theorem updateStatus_rejections (user : option string) (ticketId : string)
    (req : StatusUpdate) (w : World) :
  (authenticated user = None ->
   run (updateStatus user ticketId req) w
   = (json (BError "Unauthorized") 401, w))
  /\ (forall userId,
        authenticated user = Some userId ->
        (kv w !! user_profile_key userId ≫= as_profile) ≫= p_role
        <> Some "authority" ->
        run (updateStatus user ticketId req) w
        = (json (BError "Insufficient permissions") 403, w))
  /\ (forall userId,
        authenticated user = Some userId ->
        (kv w !! user_profile_key userId ≫= as_profile) ≫= p_role
        = Some "authority" ->
        kv w !! ticket_key ticketId = None ->
        run (updateStatus user ticketId req) w
        = (json (BError "Ticket not found") 404, w)).
Proof.
  split; [|split].
  - intros Hauth. unfold updateStatus. rewrite Hauth. reflexivity.
  - intros userId Hauth Hrole. unfold updateStatus. rewrite Hauth. run_steps.
    rewrite bool_decide_eq_false_2 by exact Hrole. reflexivity.
  - intros userId Hauth Hrole Hnone. unfold updateStatus. rewrite Hauth.
    run_steps. rewrite bool_decide_eq_true_2 by exact Hrole. run_steps.
    rewrite Hnone. reflexivity.
Qed.

Lemma updateStatus_rejections_witness :
  run (updateStatus None "TKT1" Sample.fixed) Sample.reported
  = (json (BError "Unauthorized") 401, Sample.reported)
  /\ run (updateStatus (Some "bob") "TKT404" Sample.fixed) Sample.reported
     = (json (BError "Insufficient permissions") 403, Sample.reported)
  /\ run (updateStatus (Some "off1") "TKT404" Sample.fixed) Sample.reported
     = (json (BError "Ticket not found") 404, Sample.reported).
Proof.
  split; [|split].
  - apply (updateStatus_rejections None "TKT1" Sample.fixed Sample.reported).
    reflexivity.
  - apply (updateStatus_rejections (Some "bob") "TKT404" Sample.fixed
             Sample.reported) with (userId := "bob");
      [reflexivity | vm_compute; discriminate].
  - apply (updateStatus_rejections (Some "off1") "TKT404" Sample.fixed
             Sample.reported) with (userId := "off1"); reflexivity.
Defined.

(** X12. Every handler that needs a caller answers 401 and writes
    nothing when the caller is not authenticated: the token names no
    user, or a user with an empty id. *)
Theorem unauthenticated_refused (localeCompare : string -> string -> Z)
    (user : option string) (w : World) :
  JS.truthy user = false ->
  (forall req,
     run (submitTicket user req) w = (json (BError "Unauthorized") 401, w))
  /\ (forall ticketId req,
        run (updateStatus user ticketId req) w
        = (json (BError "Unauthorized") 401, w))
  /\ (forall ticketId,
        run (upvote user ticketId) w = (json (BError "Unauthorized") 401, w))
  /\ run (myTickets user) w = (reply (PError "Unauthorized") 401, w)
  /\ (forall q,
        run (allTickets localeCompare user q) w
        = (reply (PError "Unauthorized") 401, w))
  /\ run (listNotifications user) w = (reply (PError "Unauthorized") 401, w)
  /\ (forall notificationId,
        run (markRead user notificationId) w
        = (reply (PError "Unauthorized") 401, w))
  /\ run (markAllRead user) w = (reply (PError "Unauthorized") 401, w).
Proof.
  intros Hfalsy.
  assert (Hauth : authenticated user = None)
    by (unfold authenticated; rewrite Hfalsy; reflexivity).
  unfold submitTicket, updateStatus, upvote, myTickets, allTickets,
    listNotifications, markRead, markAllRead. rewrite Hauth. repeat split.
Qed.

Lemma unauthenticated_refused_witness :
  run (upvote (Some "") "TKT1") Sample.voted
  = (json (BError "Unauthorized") 401, Sample.voted).
Proof.
  apply (unauthenticated_refused Cases.code_unit_order (Some "") Sample.voted
           eq_refl).
Defined.

(** ** Upvotes in sequence *)

Lemma upvote_key_inj ticketId u v :
  upvote_key ticketId u = upvote_key ticketId v -> u = v.
Proof.
  unfold upvote_key. intros H.
  do 3 apply String.app_inj in H. exact H.
Qed.

Lemma with_upvotes_twice ticket a b :
  with_upvotes (with_upvotes ticket a) b = with_upvotes ticket b.
Proof. reflexivity. Qed.

(** The store after a successful upvote, key by key. *)
Lemma upvote_store user userId ticketId ticket w :
  authenticated user = Some userId ->
  kv w !! ticket_key ticketId = Some (VTicket ticket) ->
  kv w !! upvote_key ticketId userId = None ->
  let after := kv (run (upvote user ticketId) w).2 in
  after !! ticket_key ticketId
  = Some (VTicket (with_upvotes ticket (t_upvotes ticket + 1)))
  /\ is_Some (after !! upvote_key ticketId userId)
  /\ (forall other, other <> userId ->
        after !! upvote_key ticketId other
        = kv w !! upvote_key ticketId other).
Proof.
  intros Hauth Hticket Hfree after. subst after.
  rewrite (upvote_run user userId ticketId ticket w Hauth Hticket Hfree).
  cbn [snd].
  assert (Hne : forall other, other <> userId ->
            upvote_key ticketId userId <> upvote_key ticketId other).
  { intros other Hother H. apply upvote_key_inj in H. congruence. }
  destruct (String.eqb (t_userId ticket) userId); cbn [kv];
    rewrite ?(lookup_insert_ne _ (notifications_key _)) by auto with keys;
    (split; [apply lookup_insert_eq|]);
    (split; [rewrite lookup_insert_ne by auto with keys;
             rewrite lookup_insert_eq; eauto|]);
    intros other Hother;
    rewrite ?(lookup_insert_ne _ (notifications_key _)) by auto with keys;
    rewrite lookup_insert_ne by auto with keys;
    apply lookup_insert_ne, Hne, Hother.
Qed.

Lemma authenticated_Some v : v <> "" -> authenticated (Some v) = Some v.
Proof. intros H. destruct v; [congruence|reflexivity]. Qed.

(** X13. One vote per voter: right after a successful upvote, a second
    upvote of the same ticket by the same voter is answered 400 and
    changes nothing, so the count has gone up by one only. *)
Theorem upvote_twice (user : option string) (userId ticketId : string)
    (ticket : Ticket) (w : World) :
  authenticated user = Some userId ->
  kv w !! ticket_key ticketId = Some (VTicket ticket) ->
  kv w !! upvote_key ticketId userId = None ->
  let first := run (upvote user ticketId) w in
  status first.1 = 200%Z
  /\ run (upvote user ticketId) first.2
     = (json (BError "Already upvoted") 400, first.2)
  /\ ticket_of (kv first.2) ticketId
     = Some (with_upvotes ticket (t_upvotes ticket + 1)).
Proof.
  intros Hauth Hticket Hfree first.
  destruct (upvote_store user userId ticketId ticket w Hauth Hticket Hfree)
    as (Hstored & [record Hrecord] & _).
  fold first in Hstored, Hrecord.
  split.
  { subst first. rewrite (upvote_run user userId ticketId ticket w Hauth
                            Hticket Hfree). reflexivity. }
  split.
  - unfold upvote. rewrite Hauth. run_steps. rewrite Hstored.
    cbn [mbind option_bind as_ticket]. run_steps. rewrite Hrecord.
    reflexivity.
  - unfold ticket_of. rewrite Hstored. reflexivity.
Qed.

Lemma upvote_twice_witness :
  run (upvote (Some "carol") "TKT1")
      (run (upvote (Some "carol") "TKT1") Sample.voted).2
  = (json (BError "Already upvoted") 400,
     (run (upvote (Some "carol") "TKT1") Sample.voted).2).
Proof.
  apply (upvote_twice (Some "carol") "carol" "TKT1" Sample.pothole
           Sample.voted); reflexivity.
Defined.

(** X14. Upvotes add up: after the voters of a list without repetition,
    none of whom has voted for the ticket before, have upvoted it one
    after the other, the ticket's count is the former count plus the
    number of voters, its other fields being as before. *)
Theorem upvotes_add_up (voters : list string) (ticketId : string)
    (ticket : Ticket) (w : World) :
  NoDup voters ->
  Forall (fun voter =>
            voter <> "" /\ kv w !! upvote_key ticketId voter = None) voters ->
  kv w !! ticket_key ticketId = Some (VTicket ticket) ->
  ticket_of (kv (poll voters ticketId w)) ticketId
  = Some (with_upvotes ticket (t_upvotes ticket + Z.of_nat (length voters))).
Proof.
  revert ticket w. induction voters as [|v voters IH];
    intros ticket w Hnodup Hall Hticket.
  - cbn [poll foldl length Z.of_nat]. unfold ticket_of. rewrite Hticket.
    cbn. destruct ticket. unfold with_upvotes. cbn. f_equal. f_equal. lia.
  - apply NoDup_cons in Hnodup as [Hv Hnodup].
    apply Forall_cons in Hall as [[Hne Hfree] Hall].
    destruct (upvote_store (Some v) v ticketId ticket w
                (authenticated_Some v Hne) Hticket Hfree)
      as (Hstored & _ & Hothers).
    change (poll (v :: voters) ticketId w)
      with (poll voters ticketId (run (upvote (Some v) ticketId) w).2).
    rewrite (IH (with_upvotes ticket (t_upvotes ticket + 1)) _ Hnodup).
    + rewrite with_upvotes_twice. cbn [with_upvotes t_upvotes length].
      f_equal. f_equal. lia.
    + apply Forall_forall. intros u Hu.
      rewrite Forall_forall in Hall. destruct (Hall u Hu) as [Hu1 Hu2].
      split; [exact Hu1|]. rewrite Hothers; [exact Hu2|].
      intros ->. contradiction.
    + exact Hstored.
Qed.

Lemma upvotes_add_up_witness :
  ticket_of (kv (poll ["carol"; "dave"; "erin"] "TKT1" Sample.voted)) "TKT1"
  = Some (with_upvotes Sample.pothole 4).
Proof.
  apply (upvotes_add_up ["carol"; "dave"; "erin"] "TKT1" Sample.pothole
           Sample.voted).
  - repeat constructor; vm_compute; intros H;
      repeat (inversion H as [|? ? ? H']; subst; clear H; rename H' into H).
  - repeat constructor; try discriminate; reflexivity.
  - reflexivity.
Defined.

(** ** Heatmap grouping *)

Lemma heatmapData_selection tickets timeFilter wardFilter threshold :
  heatmapData tickets timeFilter wardFilter threshold
  = aggregate <$> (map_to_list
                     (foldl add_ticket ∅
                        (selection tickets timeFilter wardFilter threshold))).*2.
Proof. reflexivity. Qed.

Lemma sumZ_perm l1 l2 : l1 ≡ₚ l2 -> sumZ l1 = sumZ l2.
Proof.
  induction 1; unfold sumZ in *; cbn [foldr] in *; lia.
Qed.

Lemma issues_insert_fresh m ward entry :
  m !! ward = None -> issues (<[ward := entry]> m) = (wd_issueCount entry + issues m)%Z.
Proof.
  intros Hnone. unfold issues.
  rewrite (sumZ_perm _ _ (fmap_Permutation _ _ _ (map_to_list_insert m ward entry Hnone))).
  reflexivity.
Qed.

Lemma add_ticket_issues m ticket :
  issues (add_ticket m ticket) = (issues m + 1)%Z.
Proof.
  unfold add_ticket.
  set (ward := JS.or_string (t_location ticket ≫= loc_ward) "Unknown").
  destruct (m !! ward) as [entry|] eqn:E; cbn [default].
  - rewrite <- (insert_delete_eq m ward).
    rewrite issues_insert_fresh by apply lookup_delete_eq.
    rewrite <- (insert_delete_id m ward entry E) at 2.
    rewrite issues_insert_fresh by apply lookup_delete_eq.
    cbn [wd_issueCount]. unfold Datatypes.id. lia.
  - rewrite issues_insert_fresh by exact E. cbn [wd_issueCount]. lia.
Qed.

Lemma foldl_add_ticket_issues tickets : forall m,
  issues (foldl add_ticket m tickets)
  = (issues m + Z.of_nat (length tickets))%Z.
Proof.
  induction tickets as [|t tickets IH]; intros m; cbn [foldl length].
  - lia.
  - rewrite IH, add_ticket_issues. lia.
Qed.

Lemma in_ward_snoc ward tickets ticket :
  in_ward ward (tickets ++ [ticket])
  = in_ward ward tickets
    ++ (if decide (ward_label ticket = ward) then [ticket] else []).
Proof.
  unfold in_ward. rewrite filter_app. reflexivity.
Qed.

Lemma sumZ_snoc l x : sumZ (l ++ [x]) = (sumZ l + x)%Z.
Proof.
  induction l as [|y l IH]; unfold sumZ in *; cbn [foldr app] in *; lia.
Qed.

Lemma sumZ_fmap_snoc {A} (f : A -> Z) l x :
  sumZ (f <$> (l ++ [x])) = (sumZ (f <$> l) + f x)%Z.
Proof. rewrite fmap_app. apply sumZ_snoc. Qed.

Lemma length_filter_snoc {A} (P : A -> Prop) `{!forall x, Decision (P x)}
    (l : list A) x :
  length (filter P (l ++ [x]))
  = (length (filter P l) + (if decide (P x) then 1 else 0))%nat.
Proof.
  rewrite filter_app, length_app. f_equal.
  destruct (decide (P x)) as [Hx|Hx].
  - rewrite filter_cons_True by exact Hx. reflexivity.
  - rewrite filter_cons_False by exact Hx. reflexivity.
Qed.

Lemma add_ticket_bump m ticket :
  add_ticket m ticket
  = <[ward_label ticket :=
        bump (default (blank (ward_label ticket)) (m !! ward_label ticket))
             ticket]> m.
Proof. reflexivity. Qed.

Lemma counts_blank ward : counts ward [] (blank ward).
Proof.
  repeat split.
Qed.

Lemma counts_bump ward mine e ticket :
  counts ward mine e -> counts ward (mine ++ [ticket]) (bump e ticket).
Proof.
  intros (H1 & H2 & H3 & H4 & H5). unfold counts, bump.
  cbn [wd_ward wd_issueCount wd_criticalCount wd_totalUpvotes wd_categories].
  rewrite !or_zero_id, length_app, sumZ_fmap_snoc.
  cbn [length].
  split; [exact H1|]. split; [lia|]. split; [|split; [lia|]].
  - rewrite length_filter_snoc.
    destruct (Z.leb_spec 15 (t_upvotes ticket)) as [Hc|Hc].
    + rewrite decide_True by exact Hc. lia.
    + rewrite decide_False by lia. lia.
  - intros category. rewrite length_filter_snoc.
    destruct (decide (t_category ticket = category)) as [Hc|Hc].
    + subst category. rewrite lookup_insert_eq. cbn [default].
      rewrite H5. unfold Datatypes.id. lia.
    + rewrite lookup_insert_ne by exact Hc. rewrite H5. lia.
Qed.

Lemma add_ticket_grouped m tickets ticket :
  grouped m tickets -> grouped (add_ticket m ticket) (tickets ++ [ticket]).
Proof.
  intros Hinv ward. rewrite add_ticket_bump.
  specialize (Hinv ward). unfold tallies in *. rewrite in_ward_snoc.
  destruct (decide (ward_label ticket = ward)) as [Hw|Hw].
  - subst ward. rewrite lookup_insert_eq.
    split; [intros H; apply app_eq_nil in H as [_ H]; discriminate|].
    apply counts_bump.
    destruct (m !! ward_label ticket) as [e|]; cbn [default].
    + apply Hinv.
    + rewrite Hinv. apply counts_blank.
  - rewrite lookup_insert_ne by exact Hw. rewrite app_nil_r. exact Hinv.
Qed.

Lemma foldl_add_ticket_grouped more : forall m tickets,
  grouped m tickets -> grouped (foldl add_ticket m more) (tickets ++ more).
Proof.
  induction more as [|t more IH]; intros m tickets Hinv; cbn [foldl].
  - rewrite app_nil_r. exact Hinv.
  - rewrite (cons_middle t tickets more), app_assoc.
    apply IH, add_ticket_grouped, Hinv.
Qed.

Lemma grouped_all tickets : grouped (foldl add_ticket ∅ tickets) tickets.
Proof.
  apply (foldl_add_ticket_grouped tickets ∅ []).
  intros ward. rewrite lookup_empty. reflexivity.
Qed.

Lemma heatmap_run date timeFilter wardFilter w :
  run (heatmap date timeFilter wardFilter) w
  = (json (BHeatmap
             (aggregate <$>
                (map_to_list
                   (foldl add_ticket ∅
                      (heatmap_selected date timeFilter wardFilter w))).*2))
          200,
     {| kv := kv w; oracle := tick (tick (oracle w)) |}).
Proof. reflexivity. Qed.

(** X15. When no ticket that passes the time and ward filters of a
    heatmap has the name of an inherited member as its ward label (for
    such a label the lookup [wardData[ward]] finds the member, and the
    handler ends in its error branch), the issue counts of the wards of
    the heatmap add up to the number of those tickets: every one is
    counted in one ward, once. *)
Theorem heatmap_counts_add_up (date : DateApi)
    (timeFilter wardFilter : option string) (w : World) :
  Forall own_ward (heatmap_selected date timeFilter wardFilter w) ->
  exists result,
    (run (heatmap date timeFilter wardFilter) w).1
    = json (BHeatmap result) 200
    /\ sumZ (wa_issueCount <$> result)
       = Z.of_nat (length (heatmap_selected date timeFilter wardFilter w)).
Proof.
  intros _. eexists. split; [rewrite heatmap_run; reflexivity|].
  rewrite <- list_fmap_compose, <- list_fmap_compose.
  pose proof (foldl_add_ticket_issues
                (heatmap_selected date timeFilter wardFilter w) ∅) as H.
  unfold issues in H at 2. rewrite map_to_list_empty in H.
  cbn [fmap list_fmap sumZ foldr] in H. rewrite Z.add_0_l in H.
  rewrite <- H. reflexivity.
Qed.

Lemma heatmap_counts_add_up_witness :
  exists result,
    (run (heatmap Utc.date (Some "all") None) Cases.survey).1
    = json (BHeatmap result) 200
    /\ sumZ (wa_issueCount <$> result) = 3%Z.
Proof.
  assert (Hown : Forall own_ward
                   (heatmap_selected Utc.date (Some "all") None
                      Cases.survey)).
  { unfold own_ward, own_category. refine (bool_decide_unpack _ _).
    vm_compute. exact I. }
  destruct (heatmap_counts_add_up Utc.date (Some "all") None Cases.survey
              Hown) as (result & Hrun & Hsum).
  exists result. split; [exact Hrun|]. rewrite Hsum. reflexivity.
Defined.

Lemma grouped_lookup m tickets ward :
  grouped m tickets ->
  is_Some (m !! ward) <-> exists t, t ∈ tickets /\ ward_label t = ward.
Proof.
  intros Hg. specialize (Hg ward). split.
  - intros [e He]. rewrite He in Hg. destruct Hg as [Hne _].
    destruct (in_ward ward tickets) as [|t l] eqn:E; [congruence|].
    assert (Hin : t ∈ in_ward ward tickets) by (rewrite E; constructor).
    apply list_elem_of_filter in Hin as [H1 H2]. eauto.
  - intros (t & Hin & Hl). destruct (m !! ward) as [e|]; [eauto|].
    assert (Ht : t ∈ in_ward ward tickets)
      by (apply list_elem_of_filter; auto).
    rewrite Hg in Ht. inversion Ht.
Qed.

Lemma grouped_wards m tickets :
  grouped m tickets ->
  (wa_ward ∘ aggregate) <$> (map_to_list m).*2 = (map_to_list m).*1.
Proof.
  intros Hg. rewrite <- list_fmap_compose.
  apply list_fmap_ext. intros i [k e] Hi. cbn.
  apply list_elem_of_lookup_2, elem_of_map_to_list in Hi.
  specialize (Hg k). rewrite Hi in Hg. apply Hg.
Qed.

Lemma heatmap_wards_of date timeFilter wardFilter w ward :
  ward ∈ wa_ward <$>
         (aggregate <$>
            (map_to_list
               (foldl add_ticket ∅
                  (heatmap_selected date timeFilter wardFilter w))).*2)
  <-> exists ticket,
        ticket ∈ heatmap_selected date timeFilter wardFilter w
        /\ ward_label ticket = ward.
Proof.
  pose proof (grouped_all (heatmap_selected date timeFilter wardFilter w))
    as Hg.
  rewrite <- list_fmap_compose, (grouped_wards _ _ Hg).
  rewrite <- (grouped_lookup _ _ ward Hg).
  rewrite list_elem_of_fmap. split.
  - intros ([k e] & -> & H). apply elem_of_map_to_list in H. eauto.
  - intros [e He]. exists (ward, e). split; [reflexivity|].
    apply elem_of_map_to_list, He.
Qed.

(** X16. When no ticket that passes the filters of a heatmap has the
    name of an inherited member as its ward label, the heatmap holds
    each ward once, and the wards it holds are the ward labels of those
    tickets, a ticket without a ward going under Unknown. *)
Theorem heatmap_wards (date : DateApi)
    (timeFilter wardFilter : option string) (w : World) :
  Forall own_ward (heatmap_selected date timeFilter wardFilter w) ->
  exists result,
    (run (heatmap date timeFilter wardFilter) w).1
    = json (BHeatmap result) 200
    /\ NoDup (wa_ward <$> result)
    /\ (forall ward,
          ward ∈ wa_ward <$> result <->
          exists ticket,
            ticket ∈ heatmap_selected date timeFilter wardFilter w
            /\ JS.or_string (t_location ticket ≫= loc_ward) "Unknown"
               = ward).
Proof.
  intros _. eexists. split; [rewrite heatmap_run; reflexivity|].
  split.
  - pose proof (grouped_all (heatmap_selected date timeFilter wardFilter w))
      as Hg.
    rewrite <- list_fmap_compose, (grouped_wards _ _ Hg).
    apply NoDup_fst_map_to_list.
  - intros ward. exact (heatmap_wards_of date timeFilter wardFilter w ward).
Qed.

Lemma heatmap_wards_witness :
  exists result,
    (run (heatmap Utc.date (Some "all") None) Cases.survey).1
    = json (BHeatmap result) 200
    /\ NoDup (wa_ward <$> result)
    /\ "Ward 7" ∈ wa_ward <$> result
    /\ "Ward 9" ∉ wa_ward <$> result.
Proof.
  assert (Hown : Forall own_ward
                   (heatmap_selected Utc.date (Some "all") None
                      Cases.survey)).
  { unfold own_ward, own_category. refine (bool_decide_unpack _ _).
    vm_compute. exact I. }
  destruct (heatmap_wards Utc.date (Some "all") None Cases.survey Hown)
    as (result & Hrun & Hnodup & Hwards).
  exists result. split; [exact Hrun|]. split; [exact Hnodup|].
  assert (Hsel : heatmap_selected Utc.date (Some "all") None Cases.survey
                 = stored_tickets (kv Cases.survey)) by reflexivity.
  assert (Hall : Forall (fun t => ward_label t <> "Ward 9")
                   (stored_tickets (kv Cases.survey))).
  { refine (bool_decide_unpack _ _). vm_compute. exact I. }
  split.
  - apply Hwards. exists Cases.recent. split; [|reflexivity].
    rewrite Hsel. apply elem_of_stored_tickets. exists (ticket_key "TKT2").
    split; vm_compute; reflexivity.
  - intros Hin. apply Hwards in Hin as (t & Ht & Hl).
    rewrite Hsel in Ht. rewrite Forall_forall in Hall.
    exact (Hall t Ht Hl).
Defined.

(** X17. When no ticket that passes the filters of a heatmap has the
    name of an inherited member as its ward label or as its category
    (for such a category the count read from [categories] is the
    member, not a number), each ward of the heatmap tallies the tickets
    of that ward among them: its issue count is their number, its
    critical count the number of them with 15 upvotes or more, its total
    the sum of their upvotes, and its count for a category the number of
    them in that category. *)
Theorem heatmap_tallies (date : DateApi)
    (timeFilter wardFilter : option string) (w : World) :
  Forall (fun ticket => own_ward ticket /\ own_category ticket)
         (heatmap_selected date timeFilter wardFilter w) ->
  exists result,
    (run (heatmap date timeFilter wardFilter) w).1
    = json (BHeatmap result) 200
    /\ forall agg, agg ∈ result ->
         let mine :=
           filter (fun ticket =>
                     JS.or_string (t_location ticket ≫= loc_ward) "Unknown"
                     = wa_ward agg)
                  (heatmap_selected date timeFilter wardFilter w) in
         wa_issueCount agg = Z.of_nat (length mine)
         /\ wa_criticalCount agg
            = Z.of_nat (length (filter (fun t => (15 <= t_upvotes t)%Z) mine))
         /\ wa_totalUpvotes agg = sumZ (t_upvotes <$> mine)
         /\ (forall category,
               default 0%Z (wa_categories agg !! category)
               = Z.of_nat
                   (length (filter (fun t => t_category t = category) mine))).
Proof.
  intros _. eexists. split; [rewrite heatmap_run; reflexivity|].
  intros agg Hagg mine.
  apply list_elem_of_fmap in Hagg as (e & -> & He).
  apply list_elem_of_fmap in He as ([k e'] & -> & He).
  apply elem_of_map_to_list in He. cbn [snd].
  pose proof (grouped_all (heatmap_selected date timeFilter wardFilter w) k)
    as Hg.
  rewrite He in Hg. destruct Hg as (_ & H1 & H2 & H3 & H4 & H5).
  subst mine. cbn [aggregate wa_ward wa_issueCount wa_criticalCount
                     wa_totalUpvotes wa_categories snd].
  rewrite H1. fold (in_ward k (heatmap_selected date timeFilter wardFilter w)).
  repeat split; assumption.
Qed.

Lemma heatmap_tallies_witness :
  exists result,
    (run (heatmap Utc.date (Some "all") None) Cases.survey).1
    = json (BHeatmap result) 200
    /\ forall agg, agg ∈ result -> wa_ward agg = "Ward 3" ->
         wa_issueCount agg = 2%Z /\ wa_totalUpvotes agg = 13%Z.
Proof.
  assert (Hown : Forall (fun ticket => own_ward ticket /\ own_category ticket)
                   (heatmap_selected Utc.date (Some "all") None
                      Cases.survey)).
  { unfold own_ward, own_category. refine (bool_decide_unpack _ _).
    vm_compute. exact I. }
  destruct (heatmap_tallies Utc.date (Some "all") None Cases.survey Hown)
    as (result & Hrun & Hall).
  exists result. split; [exact Hrun|].
  intros agg Hagg Hward. destruct (Hall agg Hagg) as (H1 & _ & H3 & _).
  rewrite Hward in H1, H3. rewrite H1, H3. split; vm_compute; reflexivity.
Defined.

Lemma elem_of_selection tickets timeFilter wardFilter threshold ticket :
  ticket ∈ selection tickets timeFilter wardFilter threshold <->
  ticket ∈ tickets
  /\ (timeFilter <> "all" -> (threshold <= t_createdAt ticket)%Z)
  /\ (wardFilter <> "all" ->
      t_location ticket ≫= loc_ward = Some wardFilter).
Proof.
  unfold selection.
  destruct (String.eqb_spec timeFilter "all") as [Ht|Ht];
    destruct (String.eqb_spec wardFilter "all") as [Hw|Hw];
    rewrite ?list_elem_of_filter; tauto.
Qed.

(** X18. When no ticket that passes the filters of a heatmap has the
    name of an inherited member as its ward label: with the time filter
    all, the heatmap covers the stored tickets of any age; with a time
    filter that is none of day, week, month, quarter and all, the
    threshold stays at the time of the request, so that the heatmap
    covers only tickets created at that instant or later. In both cases
    a ward filter other than all keeps the tickets of that ward only. *)
Theorem heatmap_time_filter (date : DateApi)
    (timeFilter wardFilter : option string) (w : World) :
  Forall own_ward (heatmap_selected date timeFilter wardFilter w) ->
  let period := JS.or_string timeFilter "week" in
  let area := JS.or_string wardFilter "all" in
  let requested := clock (oracle w) (S (ticks (oracle w))) in
  exists result,
    (run (heatmap date timeFilter wardFilter) w).1
    = json (BHeatmap result) 200
    /\ (period = "all" ->
        forall ward,
          ward ∈ wa_ward <$> result <->
          exists ticket,
            ticket ∈ stored_tickets (kv w)
            /\ (area <> "all" -> t_location ticket ≫= loc_ward = Some area)
            /\ JS.or_string (t_location ticket ≫= loc_ward) "Unknown" = ward)
    /\ (period <> "all" -> period <> "day" -> period <> "week" ->
        period <> "month" -> period <> "quarter" ->
        forall ward,
          ward ∈ wa_ward <$> result <->
          exists ticket,
            ticket ∈ stored_tickets (kv w)
            /\ (requested <= t_createdAt ticket)%Z
            /\ (area <> "all" -> t_location ticket ≫= loc_ward = Some area)
            /\ JS.or_string (t_location ticket ≫= loc_ward) "Unknown" = ward).
Proof.
  intros _ period area requested.
  eexists. split; [rewrite heatmap_run; reflexivity|].
  split.
  - intros Hall ward. rewrite heatmap_wards_of.
    unfold heatmap_selected. fold period area.
    setoid_rewrite elem_of_selection. unfold ward_label.
    split; intros (t & H & Hl); exists t; intuition congruence.
  - intros H0 H1 H2 H3 H4 ward. rewrite heatmap_wards_of.
    unfold heatmap_selected. fold period area.
    setoid_rewrite elem_of_selection. unfold ward_label.
    assert (Hth : heatmap_threshold date timeFilter w = requested).
    { unfold heatmap_threshold, threshold_of. fold period.
      apply String.eqb_neq in H1, H2, H3, H4. rewrite H1, H2, H3, H4.
      reflexivity. }
    rewrite Hth.
    split; intros (t & H & Hl); exists t; intuition congruence.
Qed.

Lemma heatmap_time_filter_witness :
  exists result,
    (run (heatmap Utc.date (Some "year") None) Cases.survey).1
    = json (BHeatmap result) 200
    /\ forall ward, ward ∉ wa_ward <$> result.
Proof.
  assert (Hown : Forall own_ward
                   (heatmap_selected Utc.date (Some "year") None
                      Cases.survey)).
  { unfold own_ward, own_category. refine (bool_decide_unpack _ _).
    vm_compute. exact I. }
  destruct (heatmap_time_filter Utc.date (Some "year") None Cases.survey
              Hown) as (result & Hrun & _ & H).
  exists result. split; [exact Hrun|].
  intros ward Hward.
  assert (H0 : "year" <> "all") by discriminate.
  assert (H1 : "year" <> "day") by discriminate.
  assert (H2 : "year" <> "week") by discriminate.
  assert (H3 : "year" <> "month") by discriminate.
  assert (H4 : "year" <> "quarter") by discriminate.
  destruct (proj1 (H H0 H1 H2 H3 H4 ward) Hward) as (t & Hin & Hle & _).
  assert (Hold : Forall (fun t => (t_createdAt t < 5001)%Z)
                   (stored_tickets (kv Cases.survey))).
  { vm_compute. repeat constructor. }
  rewrite Forall_forall in Hold. apply Hold in Hin.
  change (clock (oracle Cases.survey) (S (ticks (oracle Cases.survey))))
    with 5001%Z in Hle. lia.
Defined.

(** ** Distance *)




(** ** Compositions *)



(** X22. After an authority updated the status of a ticket that is on
    its reporter's ticket-id list, the reporter's own listing holds the
    ticket as updated: with the new status, the actor as assignee and,
    when notes were given, the resolution record. *)
Theorem updateStatus_then_myTickets (user : option string)
    (userId ticketId : string) (req : StatusUpdate) (profile : Profile)
    (ticket : Ticket) (w : World) :
  authenticated user = Some userId ->
  kv w !! user_profile_key userId = Some (VProfile profile) ->
  p_role profile = Some "authority" ->
  kv w !! ticket_key ticketId = Some (VTicket ticket) ->
  t_userId ticket <> "" ->
  ticketId ∈ listed (kv w) (t_userId ticket) ->
  let after := (run (updateStatus user ticketId req) w).2 in
  exists result,
    run (myTickets (Some (t_userId ticket))) after
    = (reply (PTickets result) 200, after)
    /\ updated userId req ticket (oracle w) ∈ result.
Proof.
  intros Hauth Hprofile Hrole Hticket Hreporter Hlisted after.
  assert (Hkv : forall key, (forall u, key <> notifications_key u) ->
            kv after !! key
            = <[ticket_key ticketId :=
                  VTicket (updated userId req ticket (oracle w))]> (kv w)
              !! key).
  { intros key Hkey. subst after.
    rewrite (updateStatus_run user userId ticketId req profile ticket w
               Hauth Hprofile Hrole Hticket). cbn [snd].
    destruct (kv w !! user_profile_key (t_userId ticket)); cbn [kv];
      [destruct (String.eqb (su_status req) "completed"
                 && JS.truthy (su_proofImageUrl req)); cbn [kv]|];
      rewrite ?(lookup_insert_ne _ (notifications_key _)) by auto;
      reflexivity. }
  eexists.
  split; [apply myTickets_run, authenticated_Some, Hreporter|].
  rewrite sort_with_perm, list_elem_of_omap. exists ticketId. split.
  - unfold listed in *. rewrite Hkv by auto with keys.
    rewrite lookup_insert_ne by auto with keys. exact Hlisted.
  - unfold ticket_of. rewrite Hkv by auto with keys.
    rewrite lookup_insert_eq. reflexivity.
Qed.

Lemma updateStatus_then_myTickets_witness :
  exists result,
    run (myTickets (Some "bob"))
        (run (updateStatus (Some "off1") "TKT1" Sample.fixed)
             Cases.archive).2
    = (reply (PTickets result) 200,
       (run (updateStatus (Some "off1") "TKT1" Sample.fixed)
            Cases.archive).2)
    /\ updated "off1" Sample.fixed Cases.old Sample.oracle0 ∈ result.
Proof.
  apply (updateStatus_then_myTickets (Some "off1") "off1" "TKT1" Sample.fixed
           (Sample.officer "off1") Cases.old Cases.archive);
    try reflexivity; [discriminate|].
  vm_compute. constructor.
Defined.

(** ** Upload naming *)

Lemma split_dotless s : dotless s -> split "."%char s = [s].
Proof.
  unfold dotless. induction s as [|c s IH]; intros H; [reflexivity|].
  cbn [String.list_ascii_of_string] in H. apply Forall_cons in H as [Hc Hs].
  cbn [split]. apply Ascii.eqb_neq in Hc. rewrite Hc, (IH Hs). reflexivity.
Qed.

Lemma split_segments_dotless s : Forall dotless (split "."%char s).
Proof.
  induction s as [|c s IH]; cbn [split].
  - repeat constructor.
  - destruct (Ascii.eqb_spec c "."%char) as [Hc|Hc].
    + constructor; [constructor | exact IH].
    + destruct (split "."%char s) as [|h t].
      * repeat constructor. exact Hc.
      * apply Forall_cons in IH as [Hh Ht].
        constructor; [|exact Ht]. constructor; assumption.
Qed.

Lemma split_after_dot base rest :
  exists segment segments,
    split "."%char (base +:+ String "."%char rest) = segment :: segments
    /\ segments <> []
    /\ last (split "."%char (base +:+ String "."%char rest))
       = last (split "."%char rest).
Proof.
  assert (Hne : forall s, split "."%char s <> []).
  { intros [|c s]; cbn [split]; [discriminate|].
    destruct (Ascii.eqb c "."%char); [discriminate|].
    destruct (split "."%char s); discriminate. }
  induction base as [|c base IH].
  - change ("" +:+ String "."%char rest) with (String "."%char rest).
    cbn [split]. rewrite Ascii.eqb_refl. exists EmptyString, (split "."%char rest).
    split; [reflexivity|]. split; [apply Hne|].
    destruct (split "."%char rest) eqn:E; [destruct (Hne _ E)|reflexivity].
  - change (String c base +:+ String "."%char rest)
      with (String c (base +:+ String "."%char rest)).
    cbn [split].
    destruct IH as (h & t & E & Ht & Hlast). rewrite E in *.
    destruct (Ascii.eqb c "."%char).
    + exists EmptyString, (h :: t). split; [reflexivity|].
      split; [discriminate|]. rewrite <- Hlast. reflexivity.
    + exists (String c h), t. split; [reflexivity|]. split; [exact Ht|].
      rewrite <- Hlast. destruct t; [congruence|reflexivity].
Qed.

(** X23. The extension under which an upload is stored is never empty
    and holds no dot. It is what follows the last dot of the file name;
    a name without a dot is taken whole as its own extension; an empty
    name, or one that ends with a dot, gets jpg. *)
Theorem extension_cases (base ext : string) :
  extension base <> "" /\ dotless (extension base)
  /\ (dotless ext -> ext <> "" ->
      extension (base +:+ "." +:+ ext) = ext /\ extension ext = ext)
  /\ extension (base +:+ ".") = "jpg"
  /\ extension "" = "jpg".
Proof.
  split; [|split; [|split; [|split]]].
  - unfold extension.
    destruct (last (split "."%char base)) as [[|c s]|]; discriminate.
  - unfold extension.
    pose proof (split_segments_dotless base) as Hall.
    destruct (last (split "."%char base)) as [s|] eqn:E.
    + apply last_Some_elem_of in E.
      rewrite Forall_forall in Hall. apply Hall in E.
      destruct s; cbn; [repeat constructor; discriminate | exact E].
    + cbn. repeat constructor; discriminate.
  - intros Hdot Hne.
    assert (Hext : extension ext = ext).
    { unfold extension. rewrite (split_dotless ext Hdot). cbn.
      destruct ext; [congruence|reflexivity]. }
    split; [|exact Hext].
    destruct (split_after_dot base ext) as (_ & _ & _ & _ & Hlast).
    unfold extension in *. cbn [String.append].
    change ("." +:+ ext) with (String "."%char ext).
    rewrite Hlast. exact Hext.
  - destruct (split_after_dot base "") as (_ & _ & _ & _ & Hlast).
    unfold extension. change (base +:+ ".") with (base +:+ String "."%char "").
    rewrite Hlast. reflexivity.
  - reflexivity.
Qed.

Lemma extension_cases_witness :
  extension "holiday.photo.png" = "png" /\ extension "photo" = "photo".
Proof.
  split.
  - apply (extension_cases "holiday.photo" "png");
      [repeat constructor; discriminate | discriminate].
  - apply (extension_cases "" "photo");
      [repeat constructor; discriminate | discriminate].
Defined.

Example upload_filename_sample :
  upload_filename "u42" 1700000000000 "pothole.final.JPG"
  = "u42_1700000000000.JPG"
  /\ upload_filename "u42" 1700000000000 "README" = "u42_1700000000000.README"
  /\ upload_filename "u42" 1700000000000 "scan." = "u42_1700000000000.jpg".
Proof. repeat split. Qed.
